(** * SCFA pipeline: medium configuration, dose validation and the
      per-condition simulation loop

    Shallow embedding of [src/utils.py] (input validation) and
    [src/02_run_simulation.py] (medium set-up and simulation loop).

    Conventions of the embedding.
    - A Python [float] is an IEEE binary64 number: Rocq's primitive [float].
      Integer literals of the source that end up in a bound or are compared
      with one ([-500], [0], [1000]) are written as the float of the same
      value.
    - [model.reactions] (a cobra [DictList], which indexes reactions by their
      unique identifier) is a finite map from identifier to reaction; a
      reaction object obtained from it is referred to by its identifier.
    - Assigning [r.bounds], [r.lower_bound] or [r.upper_bound] is a field
      update that, inside a [with model:] block, first records the previous
      value in the block's undo log (cobra's resettable attributes).
      cobra's own sanity check of the assigned pair is not part of this
      repository and is not modelled.
    - [pd.read_csv] and [read_sbml_model] are outside the repository: the
      functions below start from the parsed table and the loaded network.
    - [model.optimize()] is the external LP solver: a function of the
      network's bounds and objective, taken as a parameter.
    - Console logging and the counters that only feed it are left out. *)

From Stdlib Require Import Floats ZArith.
From stdpp Require Import gmap strings list fin_maps sorting pretty.

Set Warnings "-inexact-float".

(** ** Python numbers *)

Module Py.

(** [bool(x)] of a float: every value but the two zeros is true
    (NaN included). *)
Definition truthy (x : float) : bool := negb (x =? 0)%float.

(** [float("nan")] *)
Definition float_nan : float := nan.

End Py.

(** ** The network *)

Record Reaction := mkReaction {
  lower_bound : float;
  upper_bound : float
}.

Definition bounds (r : Reaction) : float * float :=
  (lower_bound r, upper_bound r).

(** One entry of an undo log: the reaction and the value it had. *)
Definition Undo : Type := string * Reaction.

Record Model := mkModel {
  reactions : gmap string Reaction;
  objective : option string;
  contexts : list (list Undo)      (* innermost [with] block first *)
}.

(** Record the old value in the innermost open block, if there is one. *)
Definition record_undo (rid : string) (old : Reaction)
    (ctxs : list (list Undo)) : list (list Undo) :=
  match ctxs with
  | [] => []
  | log :: outer => ((rid, old) :: log) :: outer
  end.

(** Update the reaction [rid], when the network has it. *)
Definition set_reaction (rid : string) (f : Reaction → Reaction)
    (m : Model) : Model :=
  match reactions m !! rid with
  | None => m
  | Some r =>
      mkModel (<[rid := f r]> (reactions m)) (objective m)
              (record_undo rid r (contexts m))
  end.

(** [model.reactions.get_by_id(rid).bounds = (lb, ub)] *)
Definition set_bounds (rid : string) (lb ub : float) : Model → Model :=
  set_reaction rid (fun _ => mkReaction lb ub).

(** [r.lower_bound = lb] *)
Definition set_lower_bound (rid : string) (lb : float) : Model → Model :=
  set_reaction rid (fun r => mkReaction lb (upper_bound r)).

(** [r.upper_bound = ub] *)
Definition set_upper_bound (rid : string) (ub : float) : Model → Model :=
  set_reaction rid (fun r => mkReaction (lower_bound r) ub).

(** [rid in model.reactions] *)
Definition has_reaction (m : Model) (rid : string) : bool :=
  bool_decide (is_Some (reactions m !! rid)).

(** [for x in xs: body] over the network. *)
Definition for_each {A} (xs : list A) (body : A → Model → Model)
    (m : Model) : Model :=
  foldl (fun acc x => body x acc) m xs.

(** The identifiers met by [for r in model.reactions]. *)
Definition reaction_ids (m : Model) : list string :=
  (map_to_list (reactions m)).*1.

(** ** Constants of [02_run_simulation.py] *)

Definition SCFA_RXN_IDS : list (string * list string) :=
  [ ("acetate",    ["EX_ac_e"; "EX_ac[u]"; "EX_ac(e)"]);
    ("propionate", ["EX_ppa_e"; "EX_propn_e"; "EX_ppn_e"]);
    ("butyrate",   ["EX_but_e"; "EX_btn_e"]) ].
Definition GLUCOSE_IDS : list string := ["EX_glc__D_e"; "EX_glc_D_e"; "EX_glc[e]"].
Definition O2_IDS : list string := ["EX_o2_e"; "EX_o2[e]"].
Definition ATPM_IDS : list string := ["ATPM"; "DM_atp_c_"].

Definition FREE : list string := ["EX_h2o_e"; "EX_h_e"].

Definition IONS : list (string * float) :=
  [ ("EX_pi_e", 10); ("EX_so4_e", 10); ("EX_k_e", 10); ("EX_na1_e", 10);
    ("EX_ca2_e", 10); ("EX_cl_e", 10); ("EX_mg2_e", 10); ("EX_fe2_e", 10) ]%float.

Definition SECRETION : list (string * float) :=
  [ ("EX_co2_e", 1000); ("EX_nh4_e", 100) ]%float.

Definition ESSENTIAL_AA : list string :=
  [ "EX_his__L_e"; "EX_ile__L_e"; "EX_leu__L_e"; "EX_lys__L_e";
    "EX_met__L_e"; "EX_phe__L_e"; "EX_thr__L_e"; "EX_trp__L_e"; "EX_val__L_e" ].

Definition VITAMINS : list string :=
  [ "EX_thm_e"; "EX_ribflv_e"; "EX_ncam_e"; "EX_pnto__R_e";
    "EX_pydxn_e"; "EX_fol_e"; "EX_cbl1_e"; "EX_chol_e"; "EX_inost_e" ].

Definition PATHWAYS : list (string * string) :=
  [ ("PYK", "pyruvate kinase"); ("PDHm", "pyruvate dehydrogenase");
    ("CSm", "citrate synthase"); ("ACONTm", "aconitase");
    ("ICDHxm", "isocitrate DH"); ("AKGDm", "alpha-KG DH");
    ("SUCDi", "succinate DH"); ("FUMm", "fumarase"); ("MDHm", "malate DH");
    ("PCm", "pyruvate carboxylase"); ("PEPCK", "PEPCK"); ("G6PDH2r", "G6PD");
    ("FBA", "aldolase"); ("PFK", "PFK"); ("ATPS4mi", "ATP synthase");
    ("NADH2_u10mi", "complex I"); ("CYOOm3i", "complex IV") ].

(** ** [find_rxn] *)

(** Try a list of possible identifiers, return the first one that exists. *)
Fixpoint find_rxn (m : Model) (candidates : list string) : option string :=
  match candidates with
  | [] => None
  | rid :: rest => if has_reaction m rid then Some rid else find_rxn m rest
  end.

(** ** [setup_medium] *)

Record HostSimulation := mkHostSimulation {
  oxygen_uptake : float;
  glucose_uptake : float;
  amino_acid_uptake : option float;    (* [sim.get(..., 0.01)] *)
  vitamin_uptake : option float
}.

Record Config := mkConfig {
  project_conditions : list string;
  host_simulation : HostSimulation
}.

Definition BOUNDARY_PREFIXES : list string := ["EX_"; "DM_"; "sink_"; "SK_"].

(** [r.id.startswith(("EX_", "DM_", "sink_", "SK_"))] *)
Definition is_boundary (rid : string) : bool :=
  existsb (fun p => String.prefix p rid) BOUNDARY_PREFIXES.

(** Body of the first loop, for the reaction [rid]. *)
Definition cap_internal (rid : string) (m : Model) : Model :=
  if negb (is_boundary rid) then
    let m1 :=
      match reactions m !! rid with
      | Some r => if (lower_bound r <? -500)%float
                  then set_lower_bound rid (-500)%float m else m
      | None => m
      end in
    match reactions m1 !! rid with
    | Some r => if (500 <? upper_bound r)%float
                then set_upper_bound rid 500%float m1 else m1
    | None => m1
    end
  else m.

(** Body of the second loop. *)
Definition close_boundary (rid : string) (m : Model) : Model :=
  if is_boundary rid then set_bounds rid 0%float 0%float m else m.

(** [if rxn: rxn.bounds = (lb, ub)] for the result of [find_rxn]. *)
Definition set_bounds_opt (rxn : option string) (lb ub : float)
    (m : Model) : Model :=
  match rxn with
  | Some rid => set_bounds rid lb ub m
  | None => m
  end.

Definition setup_medium (model : Model) (cfg : Config) : Model :=
  let sim := host_simulation cfg in
  (* cap internal rxns *)
  let model := for_each (reaction_ids model) cap_internal model in
  (* close ALL boundary rxns *)
  let model := for_each (reaction_ids model) close_boundary model in
  (* reopen water/protons *)
  let model :=
    for_each FREE (fun rid => set_bounds rid (-1000)%float 1000%float) model in
  (* ions *)
  let model :=
    for_each IONS (fun '(rid, ub) => set_bounds rid (- ub)%float 100%float) model in
  (* secretion *)
  let model :=
    for_each SECRETION (fun '(rid, ub) => set_bounds rid 0%float ub) model in
  (* also allow small NH4 uptake *)
  let model := set_lower_bound "EX_nh4_e" (-0.5)%float model in
  (* O2 *)
  let o2_bound := oxygen_uptake sim in
  let model := set_bounds_opt (find_rxn model O2_IDS) (- o2_bound)%float 0%float model in
  (* glucose *)
  let glc := glucose_uptake sim in
  let model := set_bounds_opt (find_rxn model GLUCOSE_IDS) (- glc)%float 0%float model in
  (* amino acids - trace *)
  let aa := default 0.01%float (amino_acid_uptake sim) in
  let model :=
    for_each ESSENTIAL_AA (fun rid => set_bounds rid (- aa)%float 0%float) model in
  (* vitamins - trace *)
  let vit := default 0.01%float (vitamin_uptake sim) in
  for_each VITAMINS (fun rid => set_bounds rid (- vit)%float 0%float) model.

(** The identifiers [setup_medium] may reopen on the network [m]. *)
Definition reopened (m : Model) : list string :=
  FREE ++ IONS.*1 ++ SECRETION.*1
       ++ option_list (find_rxn m O2_IDS)
       ++ option_list (find_rxn m GLUCOSE_IDS)
       ++ ESSENTIAL_AA ++ VITAMINS.

(** A toy network used in the examples. *)
Definition toy_reactions : gmap string Reaction :=
  list_to_map
    [ ("PYK", mkReaction (-1000) 1000);
      ("ATPM", mkReaction 0 1000);
      ("HEX1", mkReaction 0 200);
      ("EX_glc__D_e", mkReaction (-1000) 1000);
      ("EX_o2_e", mkReaction (-1000) 1000);
      ("EX_o2[e]", mkReaction (-1000) 1000);
      ("EX_ac_e", mkReaction (-1000) 1000);
      ("EX_but_e", mkReaction (-1000) 1000);
      ("EX_nh4_e", mkReaction (-1000) 1000);
      ("EX_lac__L_e", mkReaction (-1000) 1000);
      ("DM_atp_c_", mkReaction 0 1000);
      ("sink_coa_c", mkReaction (-1000) 1000) ]%float.

Definition toy_model : Model := mkModel toy_reactions None [].

Definition toy_cfg : Config :=
  mkConfig ["High"; "Low"] (mkHostSimulation 20 1 None (Some 0.02))%float.

(** The first loop on an internal reaction. *)
Definition capped (r : Reaction) : Reaction :=
  mkReaction
    (if (lower_bound r <? -500)%float then (-500)%float else lower_bound r)
    (if (500 <? upper_bound r)%float then 500%float else upper_bound r).

Definition closed : Reaction := mkReaction 0 0.

(** ** Exceptions *)

Inductive ValidationError :=
  | MissingColumns (missing : list string)
      (* [f"Missing columns: {missing}"] *)
  | ConditionsMismatch (expected got : list string)
      (* [f"Conditions don't match.\nExpected: {...}\nGot: {...}"] *)
  | NegativeValues (column : string).
      (* [f"Negative values in {c}"] *)

Inductive Exception :=
  | ValueError (e : ValidationError)
  | RuntimeError (msg : string)
  | ZeroDivisionError.

Inductive Result (A : Type) :=
  | Ok (a : A)
  | Raise (e : Exception).
Arguments Ok {A} a.
Arguments Raise {A} e.

(** ** [utils.read_scfa_inputs] *)

(** An entry of the [condition] column as parsed from the file: text, or
    an integer label. *)
Inductive Label :=
  | Str (s : string)
  | Int (z : Z).

(** [str(x)] *)
Definition py_str (x : Label) : string :=
  match x with
  | Str s => s
  | Int z => pretty z
  end.

(** A row of the dose table: its entries under the four pipeline columns
    (the dose columns are numeric).  Entries of other columns are not
    modelled, and an entry under a column that the header lacks is never
    read. *)
Record Row := mkRow {
  condition : Label;
  acetate_mmol_gDW_hr : float;
  propionate_mmol_gDW_hr : float;
  butyrate_mmol_gDW_hr : float
}.

Record DataFrame := mkDataFrame {
  columns : list string;      (* the header *)
  rows : list Row
}.

(** [sorted(xs)] and [sort_values]: a stable sort on the string key, in
    Python's (code point) order on strings. *)
Section Sorting.

Context {A : Type} (key : A → string).

Fixpoint insert_by (x : A) (l : list A) : list A :=
  match l with
  | [] => [x]
  | y :: l' =>
      if String.leb (key x) (key y) then x :: l else y :: insert_by x l'
  end.

Definition sort_by (l : list A) : list A := foldr insert_by [] l.


End Sorting.

Definition py_sorted (xs : list string) : list string := sort_by id xs.

(** The needed columns; [needed - set(df.columns)] is listed in this
    order. *)
Definition NEEDED : list string :=
  [ "condition"; "acetate_mmol_gDW_hr"; "propionate_mmol_gDW_hr";
    "butyrate_mmol_gDW_hr" ].

(** The dose columns, in the order the source checks them, each with its
    accessor. *)
Definition DOSE_COLUMNS : list (string * (Row → float)) :=
  [ ("acetate_mmol_gDW_hr", acetate_mmol_gDW_hr);
    ("propionate_mmol_gDW_hr", propionate_mmol_gDW_hr);
    ("butyrate_mmol_gDW_hr", butyrate_mmol_gDW_hr) ].

(** The name under which a row is sorted and compared. *)
Definition condition_name (r : Row) : string := py_str (condition r).

(** [df["condition"] = df["condition"].astype(str)] *)
Definition astype_str (r : Row) : Row :=
  mkRow (Str (py_str (condition r))) (acetate_mmol_gDW_hr r)
        (propionate_mmol_gDW_hr r) (butyrate_mmol_gDW_hr r).

(** [(df[c] < 0).any()] *)
Definition any_negative (get : Row → float) (rs : list Row) : bool :=
  existsb (fun r => (get r <? 0)%float) rs.

(** The loop over the dose columns. *)
Fixpoint check_negatives (cols : list (string * (Row → float)))
    (rs : list Row) : Result unit :=
  match cols with
  | [] => Ok tt
  | (c, get) :: rest =>
      if any_negative get rs then Raise (ValueError (NegativeValues c))
      else check_negatives rest rs
  end.

(** Read and validate the SCFA input table ([df] is the parsed file). *)
Definition read_scfa_inputs (df : DataFrame)
    (expected_conditions : list string) : Result DataFrame :=
  (* check columns *)
  let missing := filter (fun c => c ∉ columns df) NEEDED in
  if bool_decide (missing ≠ []) then
    Raise (ValueError (MissingColumns missing))
  else
  (* check conditions match *)
  let df := mkDataFrame (columns df) (astype_str <$> rows df) in
  let names := condition_name <$> rows df in
  if bool_decide ((list_to_set names : gset string)
                    ≠ list_to_set expected_conditions) then
    Raise (ValueError (ConditionsMismatch
             (py_sorted expected_conditions)
             (py_sorted (remove_dups names))))
  else
  (* no negatives *)
  match check_negatives DOSE_COLUMNS (rows df) with
  | Raise e => Raise e
  | Ok _ =>
      Ok (mkDataFrame (columns df) (sort_by condition_name (rows df)))
  end.

(** Example tables. *)
Definition PIPELINE_COLUMNS : list string :=
  [ "condition"; "acetate_mmol_gDW_hr"; "propionate_mmol_gDW_hr";
    "butyrate_mmol_gDW_hr" ].

Definition toy_table : DataFrame :=
  mkDataFrame PIPELINE_COLUMNS
    [ mkRow (Str "Low") 1 0.5 0;
      mkRow (Str "High") 5 2 1 ]%float.

(** A table without the butyrate column (its rows carry NaN there). *)
Definition no_butyrate_table : DataFrame :=
  mkDataFrame
    [ "condition"; "acetate_mmol_gDW_hr"; "propionate_mmol_gDW_hr" ]
    [ mkRow (Str "Low") 1 0.5 nan;
      mkRow (Str "High") 5 2 nan ]%float.

(** A table with two rows for the condition [Low]. *)
Definition duplicate_table : DataFrame :=
  mkDataFrame PIPELINE_COLUMNS
    [ mkRow (Str "Low") 1 0.5 0;
      mkRow (Str "High") 5 2 1;
      mkRow (Str "Low") 2 1 0.5 ]%float.

(** A table with a negative propionate dose. *)
Definition negative_table : DataFrame :=
  mkDataFrame PIPELINE_COLUMNS
    [ mkRow (Str "Low") 1 (-0.5) 0;
      mkRow (Str "High") 5 2 1 ]%float.

(** ** The simulation stage *)

(** What the solver returns: [objective_value] (absent when there is
    none) and the flux of each reaction. *)
Record Solution := mkSolution {
  objective_value : option float;
  fluxes : gmap string float
}.

(** A linear programme handed to the solver. *)
Definition Problem : Type := gmap string Reaction * option string.

(** State of a run: the network, and the problems solved so far (newest
    first). *)
Record World := mkWorld {
  model : Model;
  solved : list Problem
}.

(** Computations of the simulation stage: they may change the network,
    call the solver, and raise. *)
Definition M (A : Type) : Type := World → Result A * World.

Global Instance M_ret : MRet M := fun A (a : A) w => (Ok a, w).

Global Instance M_bind : MBind M := fun A B (k : A → M B) (c : M A) w =>
  match c w with
  | (Ok a, w') => k a w'
  | (Raise e, w') => (Raise e, w')
  end.

Definition raise {A} (e : Exception) : M A := fun w => (Raise e, w).

Definition lift {A} (r : Result A) : M A := fun w => (r, w).

Definition get_model : M Model := fun w => (Ok (model w), w).

Definition modify_model (f : Model → Model) : M unit :=
  fun w => (Ok tt, mkWorld (f (model w)) (solved w)).

(** [with model:] opens an undo log; leaving the block, on any exit path,
    puts back the recorded values, newest first. *)
Definition enter (m : Model) : Model :=
  mkModel (reactions m) (objective m) ([] :: contexts m).

Definition undo (rxns : gmap string Reaction) (log : list Undo)
    : gmap string Reaction :=
  foldl (fun acc '(rid, old) => <[rid := old]> acc) rxns log.

Definition exit (m : Model) : Model :=
  match contexts m with
  | [] => m
  | log :: outer => mkModel (undo (reactions m) log) (objective m) outer
  end.

(** [m] is the network [m0] inside a block opened on [m0]: undoing the
    block's log gives back the reactions of [m0]. *)
Definition in_block (m0 m : Model) : Prop :=
  ∃ log, contexts m = log :: contexts m0 ∧
         objective m = objective m0 ∧
         undo (reactions m) log = reactions m0.

Definition with_model {A} (body : M A) : M A :=
  fun w =>
    let (r, w') := body (mkWorld (enter (model w)) (solved w)) in
    (r, mkWorld (exit (model w')) (solved w')).

(** [x / y] on floats. *)
Definition py_truediv (x y : float) : Result float :=
  if (y =? 0)%float then Raise ZeroDivisionError else Ok (x / y)%float.

(** [float(v or 0)] for an objective value. *)
Definition float_or_0 (v : option float) : float :=
  match v with
  | Some x => if Py.truthy x then x else 0%float
  | None => 0%float
  end.

(** One row of [host_fluxes_by_condition.csv]. *)
Record SimulationResult := mkSimulationResult {
  res_condition : Label;
  res_objective_id : string;
  res_objective_value : float;
  res_baseline_objective : float;
  res_objective_delta : float;
  res_objective_pct_change : float;
  res_glucose_flux : option float;
  res_oxygen_flux : option float;
  res_co2_flux : float;
  res_acetate_flux : option float;
  res_propionate_flux : option float;
  res_butyrate_flux : option float;
  res_pathways : list (string * float)
}.

(** Pull out fluxes for the pathway reactions we care about. *)
Definition get_pathway_fluxes (m : Model) (solution : Solution)
    : list (string * float) :=
  (fun '(rid, _) =>
     ("pathway_" +:+ rid,
      if has_reaction m rid
      then default Py.float_nan (fluxes solution !! rid)
      else Py.float_nan)) <$> PATHWAYS.

(** [scfa_rxns.get(name)] *)
Definition scfa_get (scfa_rxns : gmap string (option string))
    (name : string) : option string :=
  match scfa_rxns !! name with
  | Some rxn => rxn
  | None => None
  end.

(** The doses of a row, as the inner loop visits them. *)
Definition doses (row : Row) : list (string * float) :=
  [ ("acetate", acetate_mmol_gDW_hr row);
    ("propionate", propionate_mmol_gDW_hr row);
    ("butyrate", butyrate_mmol_gDW_hr row) ].

(** Body of the dose-application loop. *)
Definition apply_dose (scfa_rxns : gmap string (option string))
    (scfa_dose : string * float) (m : Model) : Model :=
  let '(scfa_name, dose) := scfa_dose in
  match scfa_get scfa_rxns scfa_name with
  | Some rid =>
      if (0 <? dose)%float then set_bounds rid (- dose)%float 0%float m
      else m
  | None => m
  end.

(** The dose-application loop of one condition. *)
Definition apply_doses (scfa_rxns : gmap string (option string))
    (row : Row) : Model → Model :=
  for_each (doses row) (apply_dose scfa_rxns).

(** The SCFA exchange reactions found in the network. *)
Definition find_scfa_rxns (m : Model) : gmap string (option string) :=
  foldl (fun acc '(name, cands) => <[name := find_rxn m cands]> acc)
        ∅ SCFA_RXN_IDS.

Section Simulation.

(** The LP solver behind [model.optimize()]. *)
Variable solve : gmap string Reaction → option string → Solution.

Definition optimize : M Solution :=
  fun w =>
    let p := (reactions (model w), objective (model w)) in
    (Ok (solve p.1 p.2), mkWorld (model w) (p :: solved w)).

(** Body of the loop over the rows of the dose table. *)
Definition run_condition (atpm : string)
    (scfa_rxns : gmap string (option string))
    (rxn_glc rxn_o2 : option string) (baseline_atpm : float)
    (row : Row) : M SimulationResult :=
  let cond := condition row in
  with_model (
    modify_model (apply_doses scfa_rxns row);;
    sol ← optimize;
    let obj := float_or_0 (objective_value sol) in
    let delta := (obj - baseline_atpm)%float in
    pct ← (if Py.truthy baseline_atpm
           then lift (py_truediv (100 * delta)%float baseline_atpm)
           else mret Py.float_nan);
    let flux (r : option string) : option float :=
      match r with
      | None => None
      | Some rid => Some (default 0%float (fluxes sol !! rid))
      end in
    m ← get_model;
    mret {| res_condition := cond;
           res_objective_id := atpm;
           res_objective_value := obj;
           res_baseline_objective := baseline_atpm;
           res_objective_delta := delta;
           res_objective_pct_change := pct;
           res_glucose_flux := flux rxn_glc;
           res_oxygen_flux := flux rxn_o2;
           res_co2_flux := default 0%float (fluxes sol !! "EX_co2_e");
           res_acetate_flux := flux (scfa_get scfa_rxns "acetate");
           res_propionate_flux := flux (scfa_get scfa_rxns "propionate");
           res_butyrate_flux := flux (scfa_get scfa_rxns "butyrate");
           res_pathways := get_pathway_fluxes m sol |}).

(** [for _, row in scfa_df.iterrows(): ...; rows.append(result)] *)
Fixpoint run_conditions (atpm : string)
    (scfa_rxns : gmap string (option string))
    (rxn_glc rxn_o2 : option string) (baseline_atpm : float)
    (scfa_rows : list Row) : M (list SimulationResult) :=
  match scfa_rows with
  | [] => mret []
  | row :: rest =>
      result ← run_condition atpm scfa_rxns rxn_glc rxn_o2
                 baseline_atpm row;
      results ← run_conditions atpm scfa_rxns rxn_glc rxn_o2
                  baseline_atpm rest;
      mret (result :: results)
  end.

(** [main], from the parsed canonical dose table and the configuration;
    the initial state holds the network as loaded.  Returns the rows of
    [host_fluxes_by_condition.csv]. *)
Definition main (scfa_inputs_canonical : DataFrame) (cfg : Config)
    : M (list SimulationResult) :=
  let conditions := project_conditions cfg in
  scfa_df ← lift (read_scfa_inputs scfa_inputs_canonical conditions);
  (* set up medium *)
  modify_model (fun m => setup_medium m cfg);;
  (* set ATPM as objective *)
  m ← get_model;
  match find_rxn m ATPM_IDS with
  | None => raise (RuntimeError "Can't find ATPM reaction")
  | Some atpm =>
      modify_model (set_bounds atpm 0%float 500%float);;
      modify_model (fun m =>
        mkModel (reactions m) (Some atpm) (contexts m));;
      (* find SCFA exchange rxns *)
      m ← get_model;
      let scfa_rxns := find_scfa_rxns m in
      let rxn_glc := find_rxn m GLUCOSE_IDS in
      let rxn_o2 := find_rxn m O2_IDS in
      (* baseline (no SCFAs) *)
      baseline_sol ← optimize;
      let baseline_atpm := float_or_0 (objective_value baseline_sol) in
      (* run each condition *)
      run_conditions atpm scfa_rxns rxn_glc rxn_o2 baseline_atpm
        (rows scfa_df)
  end.

(** The row computed for one condition on the network [m], written as a
    function: what [run_condition] is shown to return. *)
Definition condition_outcome (atpm : string)
    (scfa_rxns : gmap string (option string))
    (rxn_glc rxn_o2 : option string) (baseline_atpm : float)
    (m : Model) (row : Row) : SimulationResult :=
  let m' := apply_doses scfa_rxns row (enter m) in
  let sol := solve (reactions m') (objective m') in
  let obj := float_or_0 (objective_value sol) in
  let delta := (obj - baseline_atpm)%float in
  let flux (r : option string) : option float :=
    match r with
    | None => None
    | Some rid => Some (default 0%float (fluxes sol !! rid))
    end in
  {| res_condition := condition row;
     res_objective_id := atpm;
     res_objective_value := obj;
     res_baseline_objective := baseline_atpm;
     res_objective_delta := delta;
     res_objective_pct_change :=
       if (baseline_atpm =? 0)%float then Py.float_nan
       else (100 * delta / baseline_atpm)%float;
     res_glucose_flux := flux rxn_glc;
     res_oxygen_flux := flux rxn_o2;
     res_co2_flux := default 0%float (fluxes sol !! "EX_co2_e");
     res_acetate_flux := flux (scfa_get scfa_rxns "acetate");
     res_propionate_flux := flux (scfa_get scfa_rxns "propionate");
     res_butyrate_flux := flux (scfa_get scfa_rxns "butyrate");
     res_pathways := get_pathway_fluxes m' sol |}.

End Simulation.

(** A toy solver for the examples: the objective value grows with the
    acetate and butyrate that the bounds let in. *)
Definition toy_solve (rxns : gmap string Reaction) (obj : option string)
    : Solution :=
  let uptake rid :=
    match rxns !! rid with
    | Some r => (- lower_bound r)%float
    | None => 0%float
    end in
  mkSolution (Some (10 + uptake "EX_ac_e" + 2 * uptake "EX_but_e")%float)
             (lower_bound <$> rxns).

(** The toy network without any ATP-maintenance reaction. *)
Definition toy_model_no_atpm : Model :=
  mkModel (delete "ATPM" (delete "DM_atp_c_" toy_reactions)) None [].

Definition toy_row_low : Row := mkRow (Str "Low") 0 0.5 2.
Definition toy_row_high : Row := mkRow (Str "High") 5 2 1.

(** The state in which [main] starts: the network as loaded, nothing
    solved yet. *)
Definition loaded (sbml : Model) : World := mkWorld sbml [].

(** ** The medium, reaction by reaction *)

(** A loop [for x in xs: if key(x) in model.reactions: ....bounds = b(x)],
    seen from the reaction [k]: the last [x] with [key x = k] decides. *)
Definition overwrite {A} (key : A → string) (b : A → Reaction)
    (xs : list A) (k : string) (r : Reaction) : Reaction :=
  foldl (fun acc x => if decide (key x = k) then b x else acc) r xs.

(** The two opening loops on the reaction [k]. *)
Definition closed_or_capped (k : string) (r : Reaction) : Reaction :=
  if is_boundary k then closed else capped r.

(** What [setup_medium] makes of the reaction [k] with original bounds [r],
    step by step, given the oxygen and glucose exchanges found. *)
Definition medium_bounds (rxn_o2 rxn_glc : option string)
    (sim : HostSimulation) (k : string) (r : Reaction) : Reaction :=
  let r := closed_or_capped k r in
  let r := overwrite id (fun _ => mkReaction (-1000) 1000)%float FREE k r in
  let r := overwrite fst (fun x => mkReaction (- x.2) 100)%float IONS k r in
  let r := overwrite fst (fun x => mkReaction 0 x.2)%float SECRETION k r in
  let r := if decide ("EX_nh4_e" = k)
           then mkReaction (-0.5)%float (upper_bound r) else r in
  let r := overwrite id (fun _ => mkReaction (- oxygen_uptake sim) 0)%float
             (option_list rxn_o2) k r in
  let r := overwrite id (fun _ => mkReaction (- glucose_uptake sim) 0)%float
             (option_list rxn_glc) k r in
  let r := overwrite id
             (fun _ => mkReaction (- default 0.01 (amino_acid_uptake sim)) 0)%float
             ESSENTIAL_AA k r in
  overwrite id
    (fun _ => mkReaction (- default 0.01 (vitamin_uptake sim)) 0)%float
    VITAMINS k r.

(** A small network with one exchange of each kind the medium names. *)
Definition medium_model : Model :=
  mkModel
    (list_to_map
       [ ("EX_h2o_e", mkReaction (-1000) 1000);
         ("EX_pi_e", mkReaction (-1000) 1000);
         ("EX_co2_e", mkReaction (-1000) 1000);
         ("EX_nh4_e", mkReaction (-1000) 1000);
         ("EX_o2[e]", mkReaction (-1000) 1000);
         ("EX_glc_D_e", mkReaction (-1000) 1000);
         ("EX_glc[e]", mkReaction (-1000) 1000);
         ("EX_his__L_e", mkReaction (-1000) 1000);
         ("EX_thm_e", mkReaction (-1000) 1000);
         ("EX_ppa_e", mkReaction (-1000) 1000);
         ("DM_atp_c_", mkReaction 0 1000);
         ("PFK", mkReaction 0 1000);
         ("FBA", mkReaction (-1000) 1000) ]%float)
    None [].

(** ** The simulation stage, end to end *)

(** The linear programme solved for one condition on the network [m]. *)
Definition condition_problem (scfa_rxns : gmap string (option string))
    (m : Model) (row : Row) : Problem :=
  let m' := apply_doses scfa_rxns row (enter m) in
  (reactions m', objective m').

(** The network on which [main] runs the baseline: the medium set up, the
    objective reaction [atpm] at (0, 500) and made the objective. *)
Definition configured (sbml : Model) (cfg : Config) (atpm : string) : Model :=
  let m := set_bounds atpm 0%float 500%float (setup_medium sbml cfg) in
  mkModel (reactions m) (Some atpm) (contexts m).

(** All the candidate identifiers of the SCFA exchanges. *)
Definition SCFA_CANDIDATES : list string :=
  SCFA_RXN_IDS ≫= snd.


(** A dose table with a condition that gives no SCFA at all. *)
Definition control_table : DataFrame :=
  mkDataFrame PIPELINE_COLUMNS
    [ mkRow (Str "High") 5 2 1;
      mkRow (Str "Control") 0 0 0 ]%float.

Definition control_cfg : Config :=
  mkConfig ["Control"; "High"] (mkHostSimulation 20 1 None None)%float.

(** ** The merged output table *)

Global Instance Label_eq_dec : EqDecision Label.
Proof. solve_decision. Defined.

(** [left.merge(right, on="condition", how="left")] on the rows: each dose
    row, in order, beside every result row of the same condition (in their
    order), or beside nothing when there is none. *)
Definition merge_left (left : list Row) (right : list SimulationResult)
    : list (Row * option SimulationResult) :=
  left ≫= (fun l =>
    match filter (fun r => res_condition r = condition l) right with
    | [] => [(l, None)]
    | matches => (fun r => (l, Some r)) <$> matches
    end).

(** [scfa_df.merge(host_df, on="condition", how="left")] at the end of
    [main], with [host_df = pd.DataFrame(rows)]: a frame built from no row
    has no [condition] column, and the merge then fails with a [KeyError]
    ([None]). *)
Definition merged_dose_scfa_host (scfa_df : DataFrame)
    (host_rows : list SimulationResult)
    : option (list (Row * option SimulationResult)) :=
  match host_rows with
  | [] => None
  | _ => Some (merge_left (rows scfa_df) host_rows)
  end.

(** How many rows of the table carry the condition of [l]. *)
Definition same_condition_count (l : Row) (rs : list Row) : nat :=
  length (filter (fun r => condition r = condition l) rs).

(** ** The table stage ([04_tables.py]) *)

(** A frame read from a CSV file, column by column; the entries are of any
    type [A]. *)
Section Frames.

Context {A : Type}.

(** [t[c]]: the column named [c], if the frame has one. *)
Fixpoint column (c : string) (t : list (string * list A))
    : option (list A) :=
  match t with
  | [] => None
  | (name, data) :: rest =>
      if decide (name = c) then Some data else column c rest
  end.

(** [t[cols]] for a list of names: the named columns in the order asked,
    or a [KeyError] ([None]) when one of them is missing. *)
Definition select (t : list (string * list A)) (cols : list string)
    : option (list (string * list A)) :=
  mapM (fun c => pair c <$> column c t) cols.

(** [t.columns = names], on a frame with as many columns as names. *)
Definition set_columns (names : list string) (t : list (string * list A))
    : list (string * list A) :=
  zip_with (fun name col => (name, col.2)) names t.

End Frames.

Definition TABLE1_COLUMNS : list string :=
  [ "condition"; "acetate_mmol_gDW_hr"; "propionate_mmol_gDW_hr";
    "butyrate_mmol_gDW_hr" ].

Definition TABLE1_HEADINGS : list string :=
  [ "Condition"; "Acetate (mmol/gDW/hr)"; "Propionate (mmol/gDW/hr)";
    "Butyrate (mmol/gDW/hr)" ].

Definition TABLE2_COLUMNS : list string :=
  [ "condition"; "objective_id"; "objective_value"; "baseline_objective";
    "objective_delta"; "objective_pct_change";
    "glucose_flux"; "oxygen_flux"; "co2_flux";
    "acetate_flux"; "propionate_flux"; "butyrate_flux" ].

(** The list [scols] that the two nested loops of Table 3 build. *)
Definition summary_columns (header : list string) : list string :=
  foldl (fun scols s =>
    foldl (fun scols suffix =>
      let c := s +:+ suffix in
      if bool_decide (c ∈ header) then scols ++ [c] else scols)
      scols ["_mmol_gDW_hr"; "_flux"])
    ["condition"; "objective_value"]
    ["acetate"; "propionate"; "butyrate"].

(** The columns of the summary table, when all are there. *)
Definition SUMMARY_COLUMNS : list string :=
  [ "condition"; "objective_value";
    "acetate_mmol_gDW_hr"; "acetate_flux";
    "propionate_mmol_gDW_hr"; "propionate_flux";
    "butyrate_mmol_gDW_hr"; "butyrate_flux" ].

(** [04_tables.main], from the parsed merged table: the three tables it
    writes, or [None] for the [KeyError] of a failed selection. *)
Definition tables_main {A} (merged : list (string * list A))
    : option (list (string * list A) * list (string * list A)
              * list (string * list A)) :=
  (* Table 1: SCFA inputs *)
  t1 ← select merged TABLE1_COLUMNS;
  let t1 := set_columns TABLE1_HEADINGS t1 in
  (* Table 2: host fluxes *)
  let cols := filter (fun c => c ∈ merged.*1) TABLE2_COLUMNS in
  t2 ← select merged cols;
  (* Table 3: simple summary *)
  let scols := summary_columns merged.*1 in
  t3 ← select merged (filter (fun c => c ∈ merged.*1) scols);
  Some (t1, t2, t3).

(** A merged table without the pathway and percent-change columns. *)
Definition small_merged : list (string * list nat) :=
  [ ("condition", [1; 2]); ("acetate_mmol_gDW_hr", [3; 4]);
    ("propionate_mmol_gDW_hr", [5; 6]); ("butyrate_mmol_gDW_hr", [7; 8]);
    ("objective_value", [9; 10]); ("acetate_flux", [11; 12]);
    ("note", [13; 14]) ].

(** ** The figure stage ([03_figures.py]): the order of the rows *)

Definition COND_ORDER : list string :=
  ["StachysDose_Low"; "StachysDose_Mid"; "StachysDose_High"].
Definition LABELS : list string := ["Low"; "Mid"; "High"].

(** [{c: i for i, c in enumerate(COND_ORDER)}] applied by [.map]: the rank
    of a condition, or NaN ([None]) for a condition that is not listed. *)
Definition cond_ord (c : string) : option nat :=
  fst <$> list_find (fun x => x = c) COND_ORDER.

(** The order of [sort_values("_ord")]: by rank, NaN last. *)
Definition ord_le (a b : option nat) : bool :=
  match a, b with
  | Some i, Some j => Nat.leb i j
  | Some _, None => true
  | None, Some _ => false
  | None, None => true
  end.

Section OrderRows.

Context {A : Type} (cond : A → string).

Fixpoint insert_ord (x : A) (l : list A) : list A :=
  match l with
  | [] => [x]
  | y :: l' =>
      if ord_le (cond_ord (cond x)) (cond_ord (cond y))
      then x :: l else y :: insert_ord x l'
  end.

(** [merged.sort_values("_ord").reset_index(drop=True)] *)
Definition order_rows (rows : list A) : list A := foldr insert_ord [] rows.

(** [x] does not come after [y] in the order of the figures. *)
Definition ord_before (x y : A) : Prop :=
  ord_le (cond_ord (cond x)) (cond_ord (cond y)) = true.

End OrderRows.
(** * Properties *)

(** ** Order facts on binary64 numbers *)

Module FloatOrder.

Import SpecFloat.

Lemma SFcompare_antisym (x y : spec_float) :
  SFcompare y x = CompOpp <$> SFcompare x y.
Proof.
  destruct x as [sx| sx | |sx mx ex], y as [sy|sy| |sy my ey]; simpl;
    try reflexivity;
    try (destruct sx; reflexivity);
    try (destruct sy; reflexivity);
    try (destruct sx, sy; reflexivity).
  f_equal. destruct sx, sy; simpl; try reflexivity.
  - rewrite (Z.compare_antisym ex ey).
    destruct (ex ?= ey)%Z; simpl; try reflexivity.
    change (Pos.compare_cont Eq my mx) with (my ?= mx)%positive.
    change (Pos.compare_cont Eq mx my) with (mx ?= my)%positive.
    now rewrite (Pos.compare_antisym mx my).
  - rewrite (Z.compare_antisym ex ey).
    destruct (ex ?= ey)%Z; simpl; try reflexivity.
    change (Pos.compare_cont Eq my mx) with (my ?= mx)%positive.
    change (Pos.compare_cont Eq mx my) with (mx ?= my)%positive.
    now rewrite (Pos.compare_antisym mx my).
Qed.

Lemma SFcompare_refl (x : spec_float) :
  x ≠ S754_nan → SFcompare x x = Some Eq.
Proof.
  destruct x as [s|s| |s m e]; simpl; intros Hx; try congruence.
  - destruct s; reflexivity.
  - rewrite Z.compare_refl.
    change (Pos.compare_cont Eq m m) with (m ?= m)%positive.
    rewrite Pos.compare_refl. destruct s; reflexivity.
Qed.

Lemma SFcompare_nan_r (x : spec_float) : SFcompare x S754_nan = None.
Proof. destruct x; reflexivity. Qed.

(** [x <= y] excludes [y < x]. *)
Lemma leb_not_ltb (x y : float) :
  (x <=? y)%float = true → (y <? x)%float = false.
Proof.
  rewrite FloatAxioms.leb_spec, FloatAxioms.ltb_spec. unfold SFleb, SFltb.
  rewrite (SFcompare_antisym (Prim2SF x) (Prim2SF y)).
  destruct (SFcompare (Prim2SF x) (Prim2SF y)) as [[]|]; simpl; congruence.
Qed.

Lemma not_nan_spec (x : float) :
  is_nan x = false → Prim2SF x ≠ S754_nan.
Proof.
  unfold is_nan. rewrite FloatAxioms.eqb_spec. unfold SFeqb. intros H E.
  rewrite E in H. simpl in H. discriminate.
Qed.

(** Between two numbers, "not [x < y]" is [y <= x]. *)
Lemma not_ltb_leb (x y : float) :
  is_nan x = false → is_nan y = false →
  (x <? y)%float = false → (y <=? x)%float = true.
Proof.
  intros Hx%not_nan_spec Hy%not_nan_spec.
  rewrite FloatAxioms.leb_spec, FloatAxioms.ltb_spec. unfold SFleb, SFltb.
  rewrite (SFcompare_antisym (Prim2SF x) (Prim2SF y)).
  destruct (Prim2SF x) as [sx|sx| |sx mx ex] eqn:Ex; try congruence;
    destruct (Prim2SF y) as [sy|sy| |sy my ey] eqn:Ey; try congruence;
    match goal with
    | |- context [SFcompare ?a ?b] =>
        destruct (SFcompare a b) as [[]|] eqn:Ec; simpl; try congruence
    end;
    simpl in Ec; try discriminate;
    repeat match type of Ec with
           | context [if ?s then _ else _] => destruct s
           end; discriminate.
Qed.

End FloatOrder.

(** ** How the steps of [setup_medium] act on one reaction *)

Section Steps.

Implicit Types (m : Model) (rid k : string) (r : Reaction).

Lemma reactions_set_reaction rid f m k :
  reactions (set_reaction rid f m) !! k =
    if decide (rid = k) then f <$> reactions m !! k else reactions m !! k.
Proof.
  unfold set_reaction.
  destruct (reactions m !! rid) as [r|] eqn:E; simpl.
  - rewrite lookup_insert. case_decide; subst; [by rewrite E | done].
  - case_decide; subst; [by rewrite E | done].
Qed.

Lemma reactions_set_reaction_ne rid f m k :
  rid ≠ k → reactions (set_reaction rid f m) !! k = reactions m !! k.
Proof. intros. rewrite reactions_set_reaction. by case_decide. Qed.

Lemma objective_set_reaction rid f m :
  objective (set_reaction rid f m) = objective m.
Proof. unfold set_reaction. by destruct (reactions m !! rid). Qed.

Lemma dom_set_reaction rid f m :
  dom (reactions (set_reaction rid f m)) = dom (reactions m).
Proof.
  apply set_eq. intros k. rewrite !elem_of_dom, reactions_set_reaction.
  case_decide; [|done]. by rewrite fmap_is_Some.
Qed.

Lemma has_reaction_dom m m' rid :
  dom (reactions m) = dom (reactions m') →
  has_reaction m rid = has_reaction m' rid.
Proof.
  intros Hd. unfold has_reaction. apply bool_decide_ext.
  by rewrite <- !elem_of_dom, Hd.
Qed.

Lemma find_rxn_dom m m' cands :
  dom (reactions m) = dom (reactions m') →
  find_rxn m cands = find_rxn m' cands.
Proof.
  intros Hd. induction cands as [|c cands IH]; simpl; [done|].
  by rewrite (has_reaction_dom m m' c Hd), IH.
Qed.

Lemma find_rxn_elem m cands rid :
  find_rxn m cands = Some rid → rid ∈ cands ∧ is_Some (reactions m !! rid).
Proof.
  induction cands as [|c cands IH]; simpl; [done|].
  unfold has_reaction at 1. case_bool_decide as Hc.
  - intros [= <-]. split; [left | done].
  - intros [? ?]%IH. split; [by right | done].
Qed.

Lemma find_rxn_None m cands :
  find_rxn m cands = None ↔ ∀ rid, rid ∈ cands → reactions m !! rid = None.
Proof.
  induction cands as [|c cands IH]; simpl.
  - split; [|done]. intros _ rid Hin. by apply elem_of_nil in Hin.
  - unfold has_reaction at 1. case_bool_decide as Hc.
    + split; [done|]. intros H. destruct Hc as [r Hr].
      rewrite (H c) in Hr; [done | left].
    + rewrite IH. split.
      * intros H rid [->|Hin]%elem_of_cons; [|by apply H].
        by apply eq_None_not_Some.
      * intros H rid Hin. apply H. by right.
Qed.

(** A loop leaves alone what each of its iterations leaves alone. *)
Lemma for_each_frame {A} (xs : list A) (body : A → Model → Model) m k :
  (∀ x m', x ∈ xs → reactions (body x m') !! k = reactions m' !! k) →
  reactions (for_each xs body m) !! k = reactions m !! k.
Proof.
  unfold for_each. revert m.
  induction xs as [|x xs IH]; intros m H; simpl; [done|].
  rewrite IH.
  - apply H. left.
  - intros y m' Hy. apply H. by right.
Qed.

Lemma for_each_dom {A} (xs : list A) (body : A → Model → Model) m :
  (∀ x m', dom (reactions (body x m')) = dom (reactions m')) →
  dom (reactions (for_each xs body m)) = dom (reactions m).
Proof.
  intros H. unfold for_each. revert m.
  induction xs as [|x xs IH]; intros m; simpl; [done|].
  by rewrite IH, H.
Qed.

Lemma for_each_objective {A} (xs : list A) (body : A → Model → Model) m :
  (∀ x m', objective (body x m') = objective m') →
  objective (for_each xs body m) = objective m.
Proof.
  intros H. unfold for_each. revert m.
  induction xs as [|x xs IH]; intros m; simpl; [done|].
  by rewrite IH, H.
Qed.

(** A loop over distinct identifiers whose iteration for [rid] rewrites
    the reaction [rid] by [g rid] and nothing else. *)
Lemma for_each_pointwise (g : string → Reaction → Reaction)
    (body : string → Model → Model) (ids : list string) m k :
  (∀ rid m' k', reactions (body rid m') !! k' =
      if decide (rid = k') then g rid <$> reactions m' !! k'
      else reactions m' !! k') →
  NoDup ids →
  reactions (for_each ids body m) !! k =
    if decide (k ∈ ids) then g k <$> reactions m !! k else reactions m !! k.
Proof.
  intros Hbody. unfold for_each. revert m.
  induction ids as [|x ids IH]; intros m Hnd; cbn [foldl].
  - rewrite decide_False; [done | apply not_elem_of_nil].
  - apply NoDup_cons in Hnd as [Hx Hnd]. rewrite (IH _ Hnd), Hbody.
    destruct (decide (x = k)) as [->|Hne].
    + rewrite decide_False by done. by rewrite decide_True by left.
    + destruct (decide (k ∈ ids)) as [Hin|Hin].
      * by rewrite decide_True by (by right).
      * rewrite decide_False; [done|].
        intros [->|?]%elem_of_cons; done.
Qed.

Lemma for_each_reactions (g : string → Reaction → Reaction)
    (body : string → Model → Model) m k :
  (∀ rid m' k', reactions (body rid m') !! k' =
      if decide (rid = k') then g rid <$> reactions m' !! k'
      else reactions m' !! k') →
  reactions (for_each (reaction_ids m) body m) !! k = g k <$> reactions m !! k.
Proof.
  intros Hbody.
  rewrite (for_each_pointwise g body _ m k Hbody)
    by apply NoDup_fst_map_to_list.
  case_decide as Hin; [done|].
  destruct (reactions m !! k) as [r|] eqn:E; [|done].
  exfalso. apply Hin. unfold reaction_ids.
  apply list_elem_of_fmap. exists (k, r). split; [done|].
  by apply elem_of_map_to_list.
Qed.

End Steps.

(** ** What [setup_medium] does to a reaction it does not reopen *)

Section SetupMedium.

Implicit Types (m : Model) (rid k : string) (r : Reaction).

Lemma cap_internal_reactions rid m k :
  reactions (cap_internal rid m) !! k =
    if decide (rid = k)
    then (fun r => if is_boundary rid then r else capped r) <$> reactions m !! k
    else reactions m !! k.
Proof.
  unfold cap_internal, set_lower_bound, set_upper_bound.
  destruct (is_boundary rid); simpl.
  { case_decide; [by destruct (reactions m !! k) | done]. }
  destruct (reactions m !! rid) as [r|] eqn:E; cycle 1.
  { rewrite E. case_decide; [subst k|done]. by rewrite E. }
  destruct (lower_bound r <? -500)%float eqn:El;
    rewrite ?reactions_set_reaction, ?decide_True, ?E by done; simpl;
    destruct (500 <? upper_bound r)%float eqn:Eu;
    rewrite ?reactions_set_reaction;
    (case_decide; [subst k|done]); rewrite E; simpl;
    unfold capped; rewrite El, Eu; by destruct r.
Qed.

Lemma close_boundary_reactions rid m k :
  reactions (close_boundary rid m) !! k =
    if decide (rid = k)
    then (fun r => if is_boundary rid then closed else r) <$> reactions m !! k
    else reactions m !! k.
Proof.
  unfold close_boundary. destruct (is_boundary rid).
  - unfold set_bounds. by rewrite reactions_set_reaction.
  - case_decide; [by destruct (reactions m !! k) | done].
Qed.

Lemma cap_internal_dom rid m :
  dom (reactions (cap_internal rid m)) = dom (reactions m).
Proof.
  apply set_eq. intros k. rewrite !elem_of_dom, cap_internal_reactions.
  case_decide; [|done]. by rewrite fmap_is_Some.
Qed.

Lemma close_boundary_dom rid m :
  dom (reactions (close_boundary rid m)) = dom (reactions m).
Proof.
  apply set_eq. intros k. rewrite !elem_of_dom, close_boundary_reactions.
  case_decide; [|done]. by rewrite fmap_is_Some.
Qed.

Lemma set_bounds_opt_frame rxn lb ub m k :
  k ∉ option_list rxn →
  reactions (set_bounds_opt rxn lb ub m) !! k = reactions m !! k.
Proof.
  destruct rxn as [rid|]; simpl; [|done].
  intros Hk. apply reactions_set_reaction_ne. intros ->. apply Hk. left.
Qed.

Lemma set_bounds_opt_dom rxn lb ub m :
  dom (reactions (set_bounds_opt rxn lb ub m)) = dom (reactions m).
Proof. destruct rxn; simpl; [apply dom_set_reaction | done]. Qed.

Lemma reopen_ids_frame (ids : list string) (lb ub : float) m k :
  k ∉ ids →
  reactions (for_each ids (fun rid => set_bounds rid lb ub) m) !! k
    = reactions m !! k.
Proof.
  intros Hk. apply for_each_frame. intros rid m' Hin.
  apply reactions_set_reaction_ne. by intros ->.
Qed.

Lemma reopen_pairs_frame (xs : list (string * float))
    (f : float → float * float) m k :
  k ∉ xs.*1 →
  reactions (for_each xs
    (fun '(rid, ub) => set_bounds rid (f ub).1 (f ub).2) m) !! k
    = reactions m !! k.
Proof.
  intros Hk. apply for_each_frame. intros [rid ub] m' Hin.
  apply reactions_set_reaction_ne. intros ->. apply Hk.
  apply list_elem_of_fmap. by exists (k, ub).
Qed.

(** Every step keeps the set of reactions. *)
Local Ltac solve_dom :=
  unfold set_lower_bound, set_upper_bound;
  repeat first
    [ rewrite set_bounds_opt_dom
    | rewrite dom_set_reaction
    | rewrite for_each_dom
        by first [ intros; apply dom_set_reaction
                 | intros [? ?] ?; apply dom_set_reaction
                 | apply cap_internal_dom
                 | apply close_boundary_dom ] ];
  reflexivity.

Lemma setup_medium_dom m cfg :
  dom (reactions (setup_medium m cfg)) = dom (reactions m).
Proof.
  unfold setup_medium. cbv zeta.
  solve_dom.
Qed.

Lemma setup_medium_objective m cfg :
  objective (setup_medium m cfg) = objective m.
Proof.
  unfold setup_medium. cbv zeta.
  assert (Hc : ∀ rid m', objective (cap_internal rid m') = objective m').
  { intros rid m'. unfold cap_internal, set_lower_bound, set_upper_bound.
    repeat case_match; rewrite ?objective_set_reaction; done. }
  assert (Hb : ∀ rid m', objective (close_boundary rid m') = objective m').
  { intros rid m'. unfold close_boundary.
    case_match; [apply objective_set_reaction | done]. }
  assert (Ho : ∀ rxn lb ub m',
             objective (set_bounds_opt rxn lb ub m') = objective m').
  { intros [?|] ???; [apply objective_set_reaction | done]. }
  unfold set_lower_bound.
  repeat first
    [ rewrite Ho
    | rewrite objective_set_reaction
    | rewrite for_each_objective
        by first [ intros; apply objective_set_reaction
                 | intros [? ?] ?; apply objective_set_reaction
                 | apply Hc | apply Hb ] ].
  reflexivity.
Qed.

(** Outside the reopened identifiers, only the two opening loops act. *)
Lemma setup_medium_outside m cfg k :
  k ∉ reopened m →
  reactions (setup_medium m cfg) !! k =
    (fun r => if is_boundary k then closed else capped r) <$> reactions m !! k.
Proof.
  intros Hk. unfold reopened in Hk.
  rewrite !not_elem_of_app in Hk.
  destruct Hk as (Hfree & Hions & Hsec & Ho2 & Hglc & Haa & Hvit).
  unfold setup_medium. cbv zeta.
  rewrite reopen_ids_frame by done.
  rewrite reopen_ids_frame by done.
  rewrite set_bounds_opt_frame; cycle 1.
  { erewrite find_rxn_dom; [exact Hglc|].
    solve_dom. }
  rewrite set_bounds_opt_frame; cycle 1.
  { erewrite find_rxn_dom; [exact Ho2|].
    solve_dom. }
  unfold set_lower_bound. rewrite reactions_set_reaction_ne; cycle 1.
  { intros <-. apply Hsec. set_solver. }
  rewrite (reopen_pairs_frame SECRETION (fun ub => (0%float, ub))) by done.
  rewrite (reopen_pairs_frame IONS (fun ub => ((- ub)%float, 100%float)))
    by done.
  rewrite reopen_ids_frame by done.
  rewrite (for_each_reactions _ _ _ _ (close_boundary_reactions)).
  rewrite (for_each_reactions _ _ _ _ (cap_internal_reactions)).
  destruct (reactions m !! k) as [r|]; simpl; [|done].
  by destruct (is_boundary k).
Qed.

End SetupMedium.

Lemma reopened_candidates (m : Model) (rid : string) :
  rid ∈ reopened m →
  rid ∈ FREE ++ IONS.*1 ++ SECRETION.*1 ++ O2_IDS ++ GLUCOSE_IDS
        ++ ESSENTIAL_AA ++ VITAMINS.
Proof.
  unfold reopened. rewrite !elem_of_app.
  intros [?|[?|[?|[H|[H|[?|?]]]]]]; auto 10.
  - destruct (find_rxn m O2_IDS) as [x|] eqn:E; simpl in H.
    + apply list_elem_of_singleton in H as ->.
      apply find_rxn_elem in E as [? _]. auto 10.
    + by apply elem_of_nil in H.
  - destruct (find_rxn m GLUCOSE_IDS) as [x|] eqn:E; simpl in H.
    + apply list_elem_of_singleton in H as ->.
      apply find_rxn_elem in E as [? _]. auto 10.
    + by apply elem_of_nil in H.
Qed.

(** Everything [setup_medium] may reopen is a boundary reaction. *)
Lemma reopened_boundary (m : Model) (rid : string) :
  rid ∈ reopened m → is_boundary rid = true.
Proof.
  intros H%reopened_candidates. revert rid H. apply Forall_forall.
  apply (bool_decide_unpack _). vm_compute. exact I.
Qed.

Example setup_medium_toy :
  let m := reactions (setup_medium toy_model toy_cfg) in
  m !! "PYK" = Some (mkReaction (-500) 500) ∧
  m !! "HEX1" = Some (mkReaction 0 200) ∧
  m !! "EX_glc__D_e" = Some (mkReaction (-1) 0) ∧
  m !! "EX_o2_e" = Some (mkReaction (-20) 0) ∧
  m !! "EX_o2[e]" = Some (mkReaction 0 0) ∧
  m !! "EX_nh4_e" = Some (mkReaction (-0.5) 100) ∧
  m !! "EX_lac__L_e" = Some (mkReaction 0 0) ∧
  m !! "sink_coa_c" = Some (mkReaction 0 0) ∧
  m !! "EX_h2o_e" = None.
Proof. vm_compute. repeat split. Qed.

(** C1. After [setup_medium], a boundary reaction (identifier starting with
    EX_, DM_, sink_ or SK_) that is not among the reopened identifiers (free
    exchanges, ions, secretion products, the resolved oxygen and glucose
    exchanges, essential amino acids, vitamins) has bounds (0, 0). *)
Theorem setup_medium_closes_boundary
    (m : Model) (cfg : Config) (rid : string) (r : Reaction) :
  reactions (setup_medium m cfg) !! rid = Some r →
  is_boundary rid = true →
  rid ∉ reopened m →
  bounds r = (0%float, 0%float).
Proof.
  intros Hr Hb Hk. rewrite (setup_medium_outside m cfg rid Hk), Hb in Hr.
  destruct (reactions m !! rid); simpl in Hr; [|done].
  by injection Hr as <-.
Qed.

Lemma setup_medium_closes_boundary_witness :
  reactions (setup_medium toy_model toy_cfg) !! "EX_lac__L_e" = Some closed ∧
  is_boundary "EX_lac__L_e" = true ∧
  ("EX_lac__L_e" ∉ reopened toy_model) ∧
  bounds closed = (0%float, 0%float).
Proof.
  assert (H1 : reactions (setup_medium toy_model toy_cfg) !! "EX_lac__L_e"
               = Some closed) by (vm_compute; reflexivity).
  assert (H2 : is_boundary "EX_lac__L_e" = true) by reflexivity.
  assert (H3 : "EX_lac__L_e" ∉ reopened toy_model)
    by (apply (bool_decide_unpack _); vm_compute; exact I).
  split; [exact H1 | split; [exact H2 | split; [exact H3 |]]].
  exact (setup_medium_closes_boundary toy_model toy_cfg "EX_lac__L_e" closed
           H1 H2 H3).
Defined.

(** C2. After [setup_medium], a reaction whose identifier has none of the
    boundary prefixes has a lower bound not below -500 and an upper bound not
    above 500, and keeps its bounds when they were within [-500, 500]. *)
Theorem setup_medium_caps_internal
    (m : Model) (cfg : Config) (rid : string) (r' : Reaction) :
  reactions (setup_medium m cfg) !! rid = Some r' →
  is_boundary rid = false →
  (lower_bound r' <? -500)%float = false ∧
  (500 <? upper_bound r')%float = false ∧
  ∃ r, reactions m !! rid = Some r ∧
    (is_nan (lower_bound r) = false → (-500 <=? lower_bound r')%float = true) ∧
    (is_nan (upper_bound r) = false → (upper_bound r' <=? 500)%float = true) ∧
    ((-500 <=? lower_bound r)%float = true →
     (upper_bound r <=? 500)%float = true → r' = r).
Proof.
  intros Hr Hb.
  assert (Hk : rid ∉ reopened m).
  { intros Hin%reopened_boundary. congruence. }
  rewrite (setup_medium_outside m cfg rid Hk), Hb in Hr.
  destruct (reactions m !! rid) as [r|]; simpl in Hr; [|done].
  injection Hr as <-. unfold capped; simpl.
  split; [|split].
  - by destruct (lower_bound r <? -500)%float eqn:E.
  - by destruct (500 <? upper_bound r)%float eqn:E.
  - exists r. split; [done|]. repeat split.
    + intros Hn. destruct (lower_bound r <? -500)%float eqn:E; [done|].
      by apply FloatOrder.not_ltb_leb.
    + intros Hn. destruct (500 <? upper_bound r)%float eqn:E; [done|].
      by apply FloatOrder.not_ltb_leb.
    + intros Hl%FloatOrder.leb_not_ltb Hu%FloatOrder.leb_not_ltb.
      rewrite Hl, Hu. by destruct r.
Qed.

Lemma setup_medium_caps_internal_witness :
  let r' := mkReaction (-500) 500 in
  reactions (setup_medium toy_model toy_cfg) !! "PYK" = Some r' ∧
  is_boundary "PYK" = false ∧
  (lower_bound r' <? -500)%float = false ∧
  (500 <? upper_bound r')%float = false.
Proof.
  assert (H1 : reactions (setup_medium toy_model toy_cfg) !! "PYK"
               = Some (mkReaction (-500) 500)) by (vm_compute; reflexivity).
  assert (H2 : is_boundary "PYK" = false) by reflexivity.
  pose proof (setup_medium_caps_internal toy_model toy_cfg "PYK" _ H1 H2)
    as (Hl & Hu & _).
  split; [exact H1 | split; [exact H2 | split; [exact Hl | exact Hu]]].
Defined.

(** ** Sorting by a string key *)

Section SortingFacts.

Context {A : Type} (key : A → string).

Lemma insert_by_Permutation (x : A) (l : list A) :
  insert_by key x l ≡ₚ x :: l.
Proof.
  induction l as [|y l IH]; simpl; [done|].
  destruct (String.leb (key x) (key y)); [done|].
  rewrite IH. apply Permutation_swap.
Qed.

Lemma sort_by_Permutation (l : list A) : sort_by key l ≡ₚ l.
Proof.
  induction l as [|x l IH]; simpl; [done|].
  by rewrite insert_by_Permutation, IH.
Qed.






End SortingFacts.

(** ** [read_scfa_inputs] *)


Lemma condition_name_astype_str (r : Row) :
  condition_name (astype_str r) = condition_name r.
Proof. reflexivity. Qed.

Lemma dose_astype_str (c : string) (get : Row → float) (r : Row) :
  (c, get) ∈ DOSE_COLUMNS → get (astype_str r) = get r.
Proof.
  unfold DOSE_COLUMNS. rewrite !elem_of_cons, elem_of_nil.
  intros [[= -> ->]|[[= -> ->]|[[= -> ->]|[]]]]; reflexivity.
Qed.


Lemma any_negative_true (get : Row → float) (rs : list Row) :
  any_negative get rs = true ↔ ∃ r, r ∈ rs ∧ (get r <? 0)%float = true.
Proof.
  unfold any_negative. rewrite existsb_exists.
  by setoid_rewrite list_elem_of_In.
Qed.


(** The loop stops at the first dose column that holds a negative value. *)
Lemma check_negatives_spec cols (rs : list Row) :
  (check_negatives cols rs = Ok tt ∧
   ∀ c get, (c, get) ∈ cols → any_negative get rs = false)
  ∨ (∃ pre c get post,
       cols = pre ++ (c, get) :: post ∧
       (∀ c' get', (c', get') ∈ pre → any_negative get' rs = false) ∧
       any_negative get rs = true ∧
       check_negatives cols rs = Raise (ValueError (NegativeValues c))).
Proof.
  induction cols as [|[c get] cols IH]; simpl.
  - left. split; [done|]. intros c get Hin. by apply elem_of_nil in Hin.
  - destruct (any_negative get rs) eqn:E.
    + right. exists [], c, get, cols. repeat split; try done.
      intros c' get' Hin. by apply elem_of_nil in Hin.
    + destruct IH as [[Hok Hall]|(pre & c' & get' & post & -> & Hpre & Hneg & Hr)].
      * left. split; [done|].
        intros c' get' [[= -> ->]|Hin]%elem_of_cons; [done|by eapply Hall].
      * right. exists ((c, get) :: pre), c', get', post.
        repeat split; try done.
        intros c'' get'' [[= -> ->]|Hin]%elem_of_cons; [done|by eapply Hpre].
Qed.

(** The header check passes exactly when every needed column is there. *)
Lemma missing_nil (cols needed : list string) :
  filter (fun c => c ∉ cols) needed = [] ↔ ∀ c, c ∈ needed → c ∈ cols.
Proof.
  induction needed as [|x needed IH].
  - split; [|done]. intros _ c Hc. by apply elem_of_nil in Hc.
  - rewrite filter_cons. case_decide as Hx.
    + split; [done|]. intros H. destruct Hx. apply H. left.
    + rewrite IH. split.
      * intros H c [->|Hc]%elem_of_cons; auto.
      * intros H c Hc. apply H. by right.
Qed.

Lemma py_sorted_set (xs : list string) :
  (list_to_set (py_sorted xs) : gset string) = list_to_set xs.
Proof.
  apply set_eq. intros x. rewrite !elem_of_list_to_set.
  unfold py_sorted. by rewrite (sort_by_Permutation id xs).
Qed.

Lemma remove_dups_set (xs : list string) :
  (list_to_set (remove_dups xs) : gset string) = list_to_set xs.
Proof.
  apply set_eq. intros x.
  by rewrite !elem_of_list_to_set, elem_of_remove_dups.
Qed.

Lemma astype_str_names (rs : list Row) :
  condition_name <$> (astype_str <$> rs) = condition_name <$> rs.
Proof. rewrite <- list_fmap_compose. by apply list_fmap_ext. Qed.

Lemma check_negatives_astype_str (rs : list Row) :
  check_negatives DOSE_COLUMNS (astype_str <$> rs)
  = check_negatives DOSE_COLUMNS rs.
Proof.
  assert (H : ∀ c get, (c, get) ∈ DOSE_COLUMNS →
            any_negative get (astype_str <$> rs) = any_negative get rs).
  { intros c get Hin. unfold any_negative.
    induction rs as [|r rs IH]; [done|].
    rewrite fmap_cons. cbn [existsb].
    by rewrite IH, (dose_astype_str c get r Hin). }
  revert H. generalize DOSE_COLUMNS. intros cols.
  induction cols as [|[c get] cols IH]; intros H; simpl; [done|].
  rewrite (H c get) by left. rewrite IH; [done|].
  intros c' get' Hin. apply (H c'). by right.
Qed.


(** What [read_scfa_inputs] returns, by cases on the three checks. *)
Lemma read_scfa_inputs_unfold (df : DataFrame) (expected : list string) :
  read_scfa_inputs df expected =
    let missing := filter (fun c => c ∉ columns df) NEEDED in
    let names := condition_name <$> rows df in
    if bool_decide (missing ≠ []) then
      Raise (ValueError (MissingColumns missing))
    else if bool_decide ((list_to_set names : gset string)
                           ≠ list_to_set expected) then
      Raise (ValueError (ConditionsMismatch
               (py_sorted expected) (py_sorted (remove_dups names))))
    else match check_negatives DOSE_COLUMNS (rows df) with
         | Raise e => Raise e
         | Ok _ => Ok (mkDataFrame (columns df)
                         (sort_by condition_name (astype_str <$> rows df)))
         end.
Proof.
  unfold read_scfa_inputs. cbv zeta. cbn [rows columns].
  by rewrite astype_str_names, check_negatives_astype_str.
Qed.

(** A successful validation returns every row of the table, sorted. *)
Lemma read_scfa_inputs_Ok (df df' : DataFrame) (expected : list string) :
  read_scfa_inputs df expected = Ok df' →
  (∀ c, c ∈ NEEDED → c ∈ columns df) ∧
  (list_to_set (condition_name <$> rows df) : gset string)
    = list_to_set expected ∧
  check_negatives DOSE_COLUMNS (rows df) = Ok tt ∧
  df' = mkDataFrame (columns df)
          (sort_by condition_name (astype_str <$> rows df)).
Proof.
  rewrite read_scfa_inputs_unfold. cbv zeta.
  case_bool_decide as Hm; [done|].
  case_bool_decide as Hs; [done|].
  destruct (check_negatives DOSE_COLUMNS (rows df)) as [[]|e] eqn:Hn; [|done].
  intros [= <-]. by rewrite <- missing_nil.
Qed.

Example py_str_examples :
  py_str (Int 7) = "7" ∧ py_str (Int (-12)) = "-12" ∧ py_str (Int 0) = "0" ∧
  py_str (Str "Low") = "Low".
Proof. vm_compute. repeat split. Qed.

(** The end-to-end example of the specification. *)
Example read_scfa_inputs_low_mid_high :
  let df := mkDataFrame PIPELINE_COLUMNS
              [ mkRow (Str "Low") 1 0.5 0; mkRow (Str "Mid") 2 1 0.5;
                mkRow (Str "High") 5 2 1 ]%float in
  read_scfa_inputs df ["Low"; "Mid"; "High"]
    = Ok (mkDataFrame PIPELINE_COLUMNS
            [ mkRow (Str "High") 5 2 1; mkRow (Str "Low") 1 0.5 0;
              mkRow (Str "Mid") 2 1 0.5 ]%float) ∧
  read_scfa_inputs df ["Low"; "Mid"; "High"; "VeryHigh"]
    = Raise (ValueError (ConditionsMismatch
               ["High"; "Low"; "Mid"; "VeryHigh"] ["High"; "Low"; "Mid"])).
Proof. vm_compute. split; reflexivity. Qed.

(** A received set that is a superset of, or disjoint from, the expected
    one. *)
Example read_scfa_inputs_superset_disjoint :
  read_scfa_inputs toy_table ["Low"]
    = Raise (ValueError (ConditionsMismatch ["Low"] ["High"; "Low"])) ∧
  read_scfa_inputs toy_table ["A"; "B"]
    = Raise (ValueError (ConditionsMismatch ["A"; "B"] ["High"; "Low"])).
Proof. vm_compute. split; reflexivity. Qed.

(** C4, as stated, fails on a table that lacks a required column: although
    its condition names differ from the expected ones, the error raised is the
    one for the header and reports neither set. *)
Lemma mismatch_with_missing_column :
  let expected := ["High"; "Low"; "Mid"] in
  (list_to_set (condition_name <$> rows no_butyrate_table) : gset string)
    ≠ list_to_set expected ∧
  read_scfa_inputs no_butyrate_table expected
    = Raise (ValueError (MissingColumns ["butyrate_mmol_gDW_hr"])) ∧
  ∀ exp got, read_scfa_inputs no_butyrate_table expected
             ≠ Raise (ValueError (ConditionsMismatch exp got)).
Proof.
  assert (H : read_scfa_inputs no_butyrate_table ["High"; "Low"; "Mid"]
              = Raise (ValueError (MissingColumns ["butyrate_mmol_gDW_hr"])))
    by (vm_compute; reflexivity).
  split; [|split].
  - apply (bool_decide_unpack _). vm_compute. exact I.
  - exact H.
  - intros exp got. cbv zeta. rewrite H. discriminate.
Qed.

(** C4 (amended). For a table that has the four required columns and whose
    set of condition names differs from the expected set, [read_scfa_inputs]
    raises the mismatch error, which carries the expected names and the names
    received (each sorted), and returns no table. *)
Theorem condition_mismatch_reported (df : DataFrame) (expected : list string) :
  (∀ c, c ∈ NEEDED → c ∈ columns df) →
  (list_to_set (condition_name <$> rows df) : gset string)
    ≠ list_to_set expected →
  ∃ exp got,
    read_scfa_inputs df expected
      = Raise (ValueError (ConditionsMismatch exp got)) ∧
    exp = py_sorted expected ∧
    got = py_sorted (remove_dups (condition_name <$> rows df)) ∧
    (list_to_set exp : gset string) = list_to_set expected ∧
    (list_to_set got : gset string)
      = list_to_set (condition_name <$> rows df).
Proof.
  intros Hcols Hne. eexists _, _. split; [|split; [done|split; [done|]]].
  - rewrite read_scfa_inputs_unfold. cbv zeta.
    apply missing_nil in Hcols. rewrite Hcols.
    rewrite bool_decide_false by (by intros []).
    by rewrite bool_decide_true.
  - by rewrite !py_sorted_set, remove_dups_set.
Qed.

Lemma condition_mismatch_reported_witness :
  read_scfa_inputs toy_table ["High"; "Low"; "Mid"]
    = Raise (ValueError
        (ConditionsMismatch ["High"; "Low"; "Mid"] ["High"; "Low"])).
Proof.
  assert (H1 : ∀ c, c ∈ NEEDED → c ∈ columns toy_table).
  { apply Forall_forall. apply (bool_decide_unpack _). vm_compute. exact I. }
  assert (H2 : (list_to_set (condition_name <$> rows toy_table) : gset string)
               ≠ list_to_set ["High"; "Low"; "Mid"]).
  { apply (bool_decide_unpack _). vm_compute. exact I. }
  destruct (condition_mismatch_reported toy_table ["High"; "Low"; "Mid"] H1 H2)
    as (exp & got & Hr & -> & -> & _).
  exact Hr.
Defined.

(** C5. For a table with the required columns and the expected condition
    set, a negative value in a dose column makes [read_scfa_inputs] raise the
    error naming a dose column that has one (the first in the order acetate,
    propionate, butyrate); no table is returned. *)
Theorem negative_dose_rejected (df : DataFrame) (expected : list string)
    (c : string) (get : Row → float) (r : Row) :
  (∀ c, c ∈ NEEDED → c ∈ columns df) →
  (list_to_set (condition_name <$> rows df) : gset string)
    = list_to_set expected →
  (c, get) ∈ DOSE_COLUMNS → r ∈ rows df → (get r <? 0)%float = true →
  ∃ pre c' get' post,
    DOSE_COLUMNS = pre ++ (c', get') :: post ∧
    (∀ c0 get0, (c0, get0) ∈ pre → any_negative get0 (rows df) = false) ∧
    any_negative get' (rows df) = true ∧
    read_scfa_inputs df expected = Raise (ValueError (NegativeValues c')) ∧
    ((∀ c0 get0, (c0, get0) ∈ DOSE_COLUMNS →
        any_negative get0 (rows df) = true → c0 = c) → c' = c).
Proof.
  intros Hcols Hset Hc Hr Hneg.
  destruct (check_negatives_spec DOSE_COLUMNS (rows df))
    as [[_ Hall]|(pre & c' & get' & post & Hsplit & Hpre & Hany & Hraise)].
  - specialize (Hall c get Hc).
    assert (any_negative get (rows df) = true) by (apply any_negative_true; eauto).
    congruence.
  - exists pre, c', get', post. repeat split; try done.
    + rewrite read_scfa_inputs_unfold. cbv zeta.
      apply missing_nil in Hcols. rewrite Hcols.
      rewrite bool_decide_false by (by intros []).
      rewrite bool_decide_false by (by intros []).
      by rewrite Hraise.
    + intros Honly. apply (Honly c' get'); [|done].
      rewrite Hsplit. apply elem_of_app. right. left.
Qed.

Lemma negative_dose_rejected_witness :
  read_scfa_inputs negative_table ["High"; "Low"]
    = Raise (ValueError (NegativeValues "propionate_mmol_gDW_hr")).
Proof.
  assert (H1 : ∀ c, c ∈ NEEDED → c ∈ columns negative_table).
  { apply Forall_forall. apply (bool_decide_unpack _). vm_compute. exact I. }
  assert (H2 : (list_to_set (condition_name <$> rows negative_table)
                  : gset string) = list_to_set ["High"; "Low"]).
  { apply (bool_decide_unpack _). vm_compute. exact I. }
  assert (H3 : ("propionate_mmol_gDW_hr", propionate_mmol_gDW_hr)
               ∈ DOSE_COLUMNS) by (right; left).
  assert (H4 : mkRow (Str "Low") 1 (-0.5) 0 ∈ rows negative_table) by left.
  assert (H5 : (propionate_mmol_gDW_hr (mkRow (Str "Low") 1 (-0.5) 0) <? 0)%float
               = true) by reflexivity.
  destruct (negative_dose_rejected negative_table ["High"; "Low"] _ _ _
              H1 H2 H3 H4 H5)
    as (pre & c' & get' & post & Hs & Hp & Ha & Hr & _).
  assert (Hc : c' = "propionate_mmol_gDW_hr").
  { assert (Hv : read_scfa_inputs negative_table ["High"; "Low"]
                 = Raise (ValueError (NegativeValues "propionate_mmol_gDW_hr")))
      by (vm_compute; reflexivity).
    rewrite Hv in Hr. by injection Hr as <-. }
  by rewrite <- Hc.
Defined.



(** C10. Some table with two rows for the same condition name, hence more
    rows than expected conditions, passes [read_scfa_inputs], which returns
    all of its rows: only the set of names is compared. *)
Theorem duplicate_conditions_accepted :
  ∃ (df : DataFrame) (expected : list string) (df' : DataFrame),
    ¬ NoDup (condition_name <$> rows df) ∧
    length expected < length (rows df) ∧
    read_scfa_inputs df expected = Ok df' ∧
    rows df' ≡ₚ rows df.
Proof.
  exists duplicate_table, ["High"; "Low"].
  eexists. split; [|split; [|split]].
  - apply (bool_decide_unpack _). vm_compute. exact I.
  - simpl. lia.
  - vm_compute. reflexivity.
  - simpl. unfold duplicate_table; simpl.
    rewrite (Permutation_swap (mkRow (Str "Low") 1 0.5 0)
               (mkRow (Str "High") 5 2 1)).
    reflexivity.
Qed.

(** ** The dose-application step *)

(** An SCFA resolves to the first of its candidates that the network has. *)
Lemma scfa_get_resolved (m : Model) (name rid : string) :
  scfa_get (find_scfa_rxns m) name = Some rid →
  ∃ cands, (name, cands) ∈ SCFA_RXN_IDS ∧ find_rxn m cands = Some rid.
Proof.
  unfold scfa_get, find_scfa_rxns. cbn [foldl SCFA_RXN_IDS].
  rewrite !lookup_insert, lookup_empty.
  repeat (case_decide as Hname;
          [subst name; intros Hf; eexists; split; [|exact Hf]; set_solver|];
          clear Hname).
  done.
Qed.

(** The candidate lists of two different SCFAs share no identifier. *)
Lemma scfa_candidates_disjoint (n1 n2 : string) (c1 c2 : list string)
    (rid : string) :
  (n1, c1) ∈ SCFA_RXN_IDS → (n2, c2) ∈ SCFA_RXN_IDS →
  rid ∈ c1 → rid ∈ c2 → n1 = n2.
Proof.
  unfold SCFA_RXN_IDS. rewrite !elem_of_cons, !elem_of_nil.
  intros [[= -> ->]|[[= -> ->]|[[= -> ->]|[]]]]
         [[= -> ->]|[[= -> ->]|[[= -> ->]|[]]]];
    rewrite ?elem_of_cons, ?elem_of_nil; try done;
    intros H1 H2; exfalso;
    repeat (destruct H1 as [H1|H1]; [subst rid|]); try done;
    repeat (destruct H2 as [H2|H2]; [discriminate H2|]); done.
Qed.

Lemma scfa_rxns_distinct (m : Model) (n1 n2 rid : string) :
  scfa_get (find_scfa_rxns m) n1 = Some rid →
  scfa_get (find_scfa_rxns m) n2 = Some rid →
  n1 = n2.
Proof.
  intros (c1 & Hc1 & [H1 _]%find_rxn_elem)%scfa_get_resolved
         (c2 & Hc2 & [H2 _]%find_rxn_elem)%scfa_get_resolved.
  by eapply scfa_candidates_disjoint.
Qed.

Lemma apply_dose_reactions (scfa_rxns : gmap string (option string))
    (name : string) (dose : float) (m : Model) (k : string) :
  reactions (apply_dose scfa_rxns (name, dose) m) !! k =
    if decide (scfa_get scfa_rxns name = Some k ∧ (0 <? dose)%float = true)
    then (fun _ => mkReaction (- dose) 0) <$> reactions m !! k
    else reactions m !! k.
Proof.
  unfold apply_dose.
  destruct (scfa_get scfa_rxns name) as [rid|] eqn:E.
  - destruct (0 <? dose)%float eqn:Ed.
    + unfold set_bounds. rewrite reactions_set_reaction.
      destruct (decide (rid = k)) as [->|Hne].
      * by rewrite decide_True.
      * rewrite decide_False; [done|]. intros [[= ?] _]. done.
    + rewrite decide_False; [done|]. by intros [_ ?].
  - rewrite decide_False; [done|]. by intros [? _].
Qed.

(** The step touches only the resolved exchange reaction of an SCFA whose
    dose is strictly positive. *)
Lemma apply_doses_frame (scfa_rxns : gmap string (option string))
    (row : Row) (m : Model) (k : string) :
  (∀ n d, (n, d) ∈ doses row →
     scfa_get scfa_rxns n = Some k → (0 <? d)%float = false) →
  reactions (apply_doses scfa_rxns row m) !! k = reactions m !! k.
Proof.
  intros Hk. apply for_each_frame. intros [n d] m' Hin.
  rewrite apply_dose_reactions, decide_False; [done|].
  intros [Hn Hd]. specialize (Hk n d Hin Hn). congruence.
Qed.

(** C8. In the dose-application step of a condition, an SCFA whose dose is 0
    (more generally, not strictly positive) has the bounds of its resolved
    exchange reaction left as they were; a strictly positive dose sets them to
    (-dose, 0). *)
Theorem zero_dose_keeps_bounds
    (m : Model) (row : Row) (name rid : string) (dose : float) :
  (name, dose) ∈ doses row →
  scfa_get (find_scfa_rxns m) name = Some rid →
  let m' := apply_doses (find_scfa_rxns m) row m in
  (dose = 0%float → reactions m' !! rid = reactions m !! rid) ∧
  ((0 <? dose)%float = false → reactions m' !! rid = reactions m !! rid) ∧
  ((0 <? dose)%float = true →
     reactions m' !! rid = Some (mkReaction (- dose) 0)) ∧
  (∀ k, (∀ n d, (n, d) ∈ doses row →
           scfa_get (find_scfa_rxns m) n = Some k → (0 <? d)%float = false) →
        reactions m' !! k = reactions m !! k).
Proof.
  intros Hin Hres m'.
  assert (Hrid : is_Some (reactions m !! rid)).
  { apply scfa_get_resolved in Hres as (c & _ & [_ ?]%find_rxn_elem). done. }
  assert (Hstep : reactions m' !! rid =
            if (0 <? dose)%float then Some (mkReaction (- dose) 0)
            else reactions m !! rid).
  { subst m'. unfold apply_doses, doses, for_each in *. cbn [foldl].
    rewrite !apply_dose_reactions.
    destruct Hrid as [r Hr].
    rewrite !elem_of_cons, elem_of_nil in Hin.
    destruct Hin as [[= -> ->]|[[= -> ->]|[[= -> ->]|[]]]];
      repeat case_decide;
      repeat match goal with
      | H : _ ∧ _ |- _ => destruct H
      | H : scfa_get _ ?n = Some rid |- _ =>
          pose proof (scfa_rxns_distinct m _ _ rid Hres H); discriminate
      end.
    all: rewrite ?Hr; simpl.
    all: try match goal with H : (0 <? _)%float = true |- _ => rewrite H end.
    all: try reflexivity.
    all: match goal with
         | |- context [(0 <? ?d)%float] => destruct (0 <? d)%float eqn:Hd'
         end; [|reflexivity].
    all: exfalso; match goal with H : ¬ _ |- _ => apply H; by split end. }
  split; [|split; [|split]].
  - intros ->. by rewrite Hstep.
  - intros Hd. by rewrite Hstep, Hd.
  - intros Hd. by rewrite Hstep, Hd.
  - intros k Hk. by apply apply_doses_frame.
Qed.

Lemma zero_dose_keeps_bounds_witness :
  reactions (apply_doses (find_scfa_rxns toy_model) toy_row_low toy_model)
    !! "EX_ac_e" = reactions toy_model !! "EX_ac_e".
Proof.
  assert (H1 : ("acetate", 0%float) ∈ doses toy_row_low) by left.
  assert (H2 : scfa_get (find_scfa_rxns toy_model) "acetate" = Some "EX_ac_e")
    by (vm_compute; reflexivity).
  exact (proj1 (zero_dose_keeps_bounds toy_model toy_row_low "acetate"
                  "EX_ac_e" 0%float H1 H2) eq_refl).
Defined.

(** ** The scoped block and the loop over the conditions *)

Lemma in_block_enter (m0 : Model) : in_block m0 (enter m0).
Proof. by exists []. Qed.

Lemma in_block_set_reaction (m0 m : Model) rid f :
  in_block m0 m → in_block m0 (set_reaction rid f m).
Proof.
  intros (log & Hc & Ho & Hu). unfold set_reaction.
  destruct (reactions m !! rid) as [r|] eqn:E; [|by exists log].
  exists ((rid, r) :: log). simpl. rewrite Hc. simpl.
  split; [done|split; [done|]].
  by rewrite insert_insert_eq, insert_id.
Qed.

Lemma in_block_for_each {A} (xs : list A) (body : A → Model → Model) m0 m :
  (∀ x m', in_block m0 m' → in_block m0 (body x m')) →
  in_block m0 m → in_block m0 (for_each xs body m).
Proof.
  intros Hbody. unfold for_each. revert m.
  induction xs as [|x xs IH]; intros m Hm; simpl; [done|].
  by apply IH, Hbody.
Qed.

Lemma in_block_apply_doses scfa_rxns row m0 m :
  in_block m0 m → in_block m0 (apply_doses scfa_rxns row m).
Proof.
  apply in_block_for_each. intros [name dose] m' Hm'. unfold apply_dose.
  repeat case_match; try done. by apply in_block_set_reaction.
Qed.

(** Leaving the block restores the network. *)
Lemma exit_in_block (m0 m : Model) : in_block m0 m → exit m = m0.
Proof.
  intros (log & Hc & Ho & Hu). unfold exit. rewrite Hc, Ho, Hu.
  by destruct m0.
Qed.

Lemma truthy_eqb (x : float) : Py.truthy x = negb (x =? 0)%float.
Proof. reflexivity. Qed.

Section SimulationFacts.

Variable solve : gmap string Reaction → option string → Solution.

Lemma run_condition_outcome atpm scfa_rxns rxn_glc rxn_o2 baseline row w :
  run_condition solve atpm scfa_rxns rxn_glc rxn_o2 baseline row w =
    (Ok (condition_outcome solve atpm scfa_rxns rxn_glc rxn_o2 baseline
           (model w) row),
     mkWorld (model w)
       ((reactions (apply_doses scfa_rxns row (enter (model w))),
         objective (apply_doses scfa_rxns row (enter (model w))))
        :: solved w)).
Proof.
  pose proof (exit_in_block _ _
    (in_block_apply_doses scfa_rxns row _ _ (in_block_enter (model w))))
    as Hexit.
  unfold run_condition, with_model, condition_outcome.
  unfold mbind, M_bind, mret, M_ret, modify_model, optimize, get_model, lift,
    py_truediv. cbn [model solved fst snd].
  rewrite truthy_eqb.
  destruct (baseline =? 0)%float eqn:Eb; cbn [negb model solved];
    by rewrite Hexit.
Qed.

Lemma run_conditions_outcome atpm scfa_rxns rxn_glc rxn_o2 baseline
    (scfa_rows : list Row) (w : World) :
  ∃ log,
    run_conditions solve atpm scfa_rxns rxn_glc rxn_o2 baseline scfa_rows w =
      (Ok (condition_outcome solve atpm scfa_rxns rxn_glc rxn_o2 baseline
             (model w) <$> scfa_rows),
       mkWorld (model w) (log ++ solved w)) ∧
    length log = length scfa_rows.
Proof.
  revert w. induction scfa_rows as [|row rest IH]; intros w.
  - exists []. split; [|done]. by destruct w.
  - cbn [run_conditions]. unfold mbind, M_bind at 1.
    rewrite run_condition_outcome.
    match goal with
    | |- context [mkWorld (model w) (?p :: solved w)] =>
        destruct (IH (mkWorld (model w) (p :: solved w))) as (log & Hrun & Hlen);
        exists (log ++ [p])
    end.
    unfold mbind, M_bind at 1. rewrite Hrun. cbn [model solved].
    split; [|rewrite length_app; simpl; lia].
    unfold mret, M_ret. by rewrite <- app_assoc.
Qed.

(** C3. Whatever list of conditions the loop is run on, the row computed for
    a condition is the same: for [rows'] a permutation or a subset of [rows],
    both runs succeed, leave the network as they found it, and give each
    condition of [rows'] the result it has in the run on [rows]. *)
Theorem condition_isolation atpm scfa_rxns rxn_glc rxn_o2 baseline
    (scfa_rows scfa_rows' : list Row) (w : World) :
  scfa_rows' ⊆ scfa_rows →
  ∃ results results' w1 w1',
    run_conditions solve atpm scfa_rxns rxn_glc rxn_o2 baseline scfa_rows w
      = (Ok results, w1) ∧
    run_conditions solve atpm scfa_rxns rxn_glc rxn_o2 baseline scfa_rows' w
      = (Ok results', w1') ∧
    model w1 = model w ∧ model w1' = model w ∧
    length results = length scfa_rows ∧
    length results' = length scfa_rows' ∧
    (scfa_rows' ≡ₚ scfa_rows → results' ≡ₚ results) ∧
    ∀ j row, scfa_rows' !! j = Some row →
      ∃ res, results' !! j = Some res ∧
        (∃ i, scfa_rows !! i = Some row) ∧
        (∀ i, scfa_rows !! i = Some row → results !! i = Some res).
Proof.
  intros Hsub.
  destruct (run_conditions_outcome atpm scfa_rxns rxn_glc rxn_o2 baseline
              scfa_rows w) as (log & Hrun & _).
  destruct (run_conditions_outcome atpm scfa_rxns rxn_glc rxn_o2 baseline
              scfa_rows' w) as (log' & Hrun' & _).
  eexists _, _, _, _. split; [exact Hrun|]. split; [exact Hrun'|].
  cbn [model]. repeat split; try done.
  - by rewrite length_fmap.
  - by rewrite length_fmap.
  - intros Hp. by rewrite Hp.
  - intros j row Hj. eexists. split; [|split].
    + by rewrite list_lookup_fmap, Hj.
    + apply list_elem_of_lookup, Hsub. by eapply list_elem_of_lookup_2.
    + intros i Hi. by rewrite list_lookup_fmap, Hi.
Qed.

(** C9. The row of a condition is always produced (the division is never
    reached with a zero baseline): with a zero baseline objective the percent
    change is NaN, otherwise it is 100 * (objective - baseline) / baseline. *)
Theorem pct_change_guarded atpm scfa_rxns rxn_glc rxn_o2 baseline
    (row : Row) (w : World) :
  ∃ res w',
    run_condition solve atpm scfa_rxns rxn_glc rxn_o2 baseline row w
      = (Ok res, w') ∧
    res_baseline_objective res = baseline ∧
    res_objective_delta res = (res_objective_value res - baseline)%float ∧
    ((baseline =? 0)%float = true →
       res_objective_pct_change res = Py.float_nan) ∧
    ((baseline =? 0)%float = false →
       res_objective_pct_change res
       = (100 * (res_objective_value res - baseline) / baseline)%float).
Proof.
  eexists _, _. split; [apply run_condition_outcome|].
  unfold condition_outcome. cbn.
  repeat split; by intros ->.
Qed.

(** C7. When no candidate identifier of the ATP-maintenance reaction is in
    the loaded network, [main] raises and no optimisation has been run; past
    the validation of the dose table, the error is the one for the missing
    ATPM reaction. *)
Theorem missing_atpm_is_fatal (scfa_inputs_canonical : DataFrame)
    (cfg : Config) (sbml : Model) :
  (∀ rid, rid ∈ ATPM_IDS → reactions sbml !! rid = None) →
  ∃ e w',
    main solve scfa_inputs_canonical cfg (loaded sbml) = (Raise e, w') ∧
    solved w' = [] ∧
    (∀ scfa_df,
       read_scfa_inputs scfa_inputs_canonical (project_conditions cfg)
         = Ok scfa_df →
       e = RuntimeError "Can't find ATPM reaction").
Proof.
  intros Hnone%find_rxn_None.
  unfold main. cbv zeta. unfold mbind, M_bind at 1. unfold lift, loaded.
  destruct (read_scfa_inputs scfa_inputs_canonical (project_conditions cfg))
    as [scfa_df|e] eqn:Hread.
  - unfold mbind, M_bind at 1. unfold modify_model at 1. cbn [model solved].
    unfold mbind, M_bind at 1. unfold get_model at 1. cbn [model solved].
    rewrite (find_rxn_dom _ sbml) by apply setup_medium_dom.
    rewrite Hnone. unfold raise.
    eexists _, _. split; [reflexivity|]. split; [done|]. done.
  - eexists _, _. split; [reflexivity|]. split; [done|]. done.
Qed.

End SimulationFacts.

Example main_toy :
  let '(r, w) := main toy_solve toy_table toy_cfg (loaded toy_model) in
  match r with
  | Ok results =>
      (fun x => (res_condition x, res_objective_value x,
                 res_objective_pct_change x)) <$> results
      = [ (Str "High", 17, 70); (Str "Low", 11, 10) ]%float
  | Raise _ => False
  end ∧
  length (solved w) = 3 ∧
  reactions (model w) !! "EX_ac_e" = Some closed ∧
  reactions (model w) !! "ATPM" = Some (mkReaction 0 500).
Proof. vm_compute. repeat split. Qed.

Lemma condition_isolation_witness :
  let run := run_conditions toy_solve "ATPM" (find_scfa_rxns toy_model)
               None None 10%float in
  let w := loaded (setup_medium toy_model toy_cfg) in
  ∃ results results',
    (run [toy_row_low; toy_row_high] w).1 = Ok results ∧
    (run [toy_row_high; toy_row_low] w).1 = Ok results' ∧
    results' !! 1 = results !! 0.
Proof.
  intros run w.
  assert (Hsub : [toy_row_high; toy_row_low] ⊆ [toy_row_low; toy_row_high]).
  { intros x Hx.
    apply elem_of_cons in Hx as [->|Hx]; [right; left|].
    apply elem_of_cons in Hx as [->|Hx]; [left|].
    by apply elem_of_nil in Hx. }
  destruct (condition_isolation toy_solve "ATPM" (find_scfa_rxns toy_model)
              None None 10%float _ _ w Hsub)
    as (results & results' & w1 & w1' & Hr & Hr' & _ & _ & _ & _ & _ & Hpos).
  exists results, results'. subst run. rewrite Hr, Hr'.
  split; [done|split; [done|]].
  destruct (Hpos 1 toy_row_low eq_refl) as (res & -> & _ & Hsame).
  symmetry. by apply Hsame.
Defined.

Lemma missing_atpm_is_fatal_witness :
  ∃ w',
    main toy_solve toy_table toy_cfg (loaded toy_model_no_atpm)
      = (Raise (RuntimeError "Can't find ATPM reaction"), w') ∧
    solved w' = [].
Proof.
  assert (H : ∀ rid, rid ∈ ATPM_IDS →
                reactions toy_model_no_atpm !! rid = None).
  { intros rid. unfold ATPM_IDS. rewrite !elem_of_cons, elem_of_nil.
    intros [->|[->|[]]]; vm_compute; reflexivity. }
  destruct (missing_atpm_is_fatal toy_solve toy_table toy_cfg
              toy_model_no_atpm H) as (e & w' & Hmain & Hs & He).
  exists w'. split; [|exact Hs].
  rewrite Hmain. f_equal. f_equal.
  eapply He. vm_compute. reflexivity.
Defined.

(** * Further properties of the pipeline *)

(** ** [find_rxn] *)

(** X1. [find_rxn] returns the first candidate, in list order, that the
    network has: every candidate before it is absent; it returns nothing
    exactly when the network has none of the candidates. *)
Theorem find_rxn_first (m : Model) (candidates : list string) :
  match find_rxn m candidates with
  | Some rid =>
      ∃ before after,
        candidates = before ++ rid :: after ∧
        is_Some (reactions m !! rid) ∧
        ∀ c, c ∈ before → reactions m !! c = None
  | None => ∀ c, c ∈ candidates → reactions m !! c = None
  end.
Proof.
  induction candidates as [|c cands IH]; simpl.
  - intros c Hc. by apply elem_of_nil in Hc.
  - unfold has_reaction at 1. case_bool_decide as Hc.
    + exists [], cands. split; [done|]. split; [done|].
      intros c' Hc'. by apply elem_of_nil in Hc'.
    + apply eq_None_not_Some in Hc.
      destruct (find_rxn m cands) as [rid|].
      * destruct IH as (before & after & -> & Hrid & Hbefore).
        exists (c :: before), after. split; [done|]. split; [done|].
        intros c' [->|Hc']%elem_of_cons; auto.
      * intros c' [->|Hc']%elem_of_cons; auto.
Qed.

(** ** [setup_medium], reaction by reaction *)

Section Medium.

Implicit Types (m : Model) (k : string) (r : Reaction).

Lemma overwrite_notin {A} (key : A → string) (b : A → Reaction)
    (xs : list A) k r :
  k ∉ key <$> xs → overwrite key b xs k r = r.
Proof.
  unfold overwrite. revert r.
  induction xs as [|x xs IH]; intros r Hk; [done|].
  rewrite fmap_cons, not_elem_of_cons in Hk. destruct Hk as [Hx Hk].
  cbn [foldl]. rewrite decide_False by done. by apply IH.
Qed.

(** Once some [x] with [key x = k] is met, the starting value is lost. *)
Lemma overwrite_in {A} (key : A → string) (b : A → Reaction)
    (xs : list A) k r r' :
  k ∈ key <$> xs → overwrite key b xs k r = overwrite key b xs k r'.
Proof.
  unfold overwrite. revert r r'.
  induction xs as [|x xs IH]; intros r r' Hk.
  - by apply elem_of_nil in Hk.
  - cbn [foldl]. destruct (decide (key x = k)) as [_|Hne]; [done|].
    apply IH. rewrite fmap_cons in Hk.
    apply elem_of_cons in Hk as [?|?]; [congruence|done].
Qed.

Lemma overwrite_const {A} (key : A → string) (c : Reaction)
    (xs : list A) k r :
  k ∈ key <$> xs → overwrite key (fun _ => c) xs k r = c.
Proof.
  unfold overwrite. revert r.
  induction xs as [|x xs IH] using rev_ind; intros r Hk.
  - by apply elem_of_nil in Hk.
  - rewrite foldl_app. cbn [foldl]. case_decide as Hx; [done|].
    apply IH. rewrite fmap_app, elem_of_app in Hk.
    destruct Hk as [?|Hk]; [done|].
    apply list_elem_of_singleton in Hk. congruence.
Qed.

Lemma for_each_overwrite {A} (key : A → string) (b : A → Reaction)
    (xs : list A) m k :
  reactions (for_each xs
    (fun x => set_bounds (key x) (lower_bound (b x)) (upper_bound (b x))) m)
    !! k
  = overwrite key b xs k <$> reactions m !! k.
Proof.
  unfold for_each, overwrite. revert m.
  induction xs as [|x xs IH]; intros m; cbn [foldl].
  - by destruct (reactions m !! k).
  - rewrite IH. unfold set_bounds. rewrite reactions_set_reaction.
    destruct (decide (key x = k)) as [Heq|Hne]; [|done].
    destruct (reactions m !! k); simpl; [|done]. by destruct (b x).
Qed.

Lemma for_each_ext {A} (xs : list A) (body body' : A → Model → Model) m :
  (∀ x m', body x m' = body' x m') →
  for_each xs body m = for_each xs body' m.
Proof.
  intros H. unfold for_each. revert m.
  induction xs as [|x xs IH]; intros m; cbn [foldl]; [done|].
  by rewrite H, IH.
Qed.

Lemma reopen_overwrite (ids : list string) (lb ub : float) m k :
  reactions (for_each ids (fun rid => set_bounds rid lb ub) m) !! k
  = overwrite id (fun _ => mkReaction lb ub) ids k <$> reactions m !! k.
Proof. exact (for_each_overwrite id (fun _ => mkReaction lb ub) ids m k). Qed.

Lemma reopen_pairs_overwrite (xs : list (string * float))
    (f g : float → float) m k :
  reactions (for_each xs (fun '(rid, ub) => set_bounds rid (f ub) (g ub)) m)
    !! k
  = overwrite fst (fun x => mkReaction (f x.2) (g x.2)) xs k
      <$> reactions m !! k.
Proof.
  rewrite <- (for_each_overwrite fst). do 2 f_equal.
  apply for_each_ext. by intros [rid ub] m'.
Qed.

Lemma set_bounds_opt_overwrite rxn (lb ub : float) m k :
  reactions (set_bounds_opt rxn lb ub m) !! k
  = overwrite id (fun _ => mkReaction lb ub) (option_list rxn) k
      <$> reactions m !! k.
Proof.
  destruct rxn as [rid|]; simpl.
  - apply (for_each_overwrite id (fun _ => mkReaction lb ub) [rid]).
  - by destruct (reactions m !! k).
Qed.

(** The whole of [setup_medium], seen from one reaction. *)
Lemma setup_medium_reactions m cfg k :
  reactions (setup_medium m cfg) !! k
  = medium_bounds (find_rxn m O2_IDS) (find_rxn m GLUCOSE_IDS)
      (host_simulation cfg) k <$> reactions m !! k.
Proof.
  unfold setup_medium. cbv zeta.
  rewrite !reopen_overwrite.
  rewrite set_bounds_opt_overwrite.
  rewrite (find_rxn_dom _ m GLUCOSE_IDS); cycle 1.
  { rewrite set_bounds_opt_dom. unfold set_lower_bound.
    rewrite dom_set_reaction.
    rewrite !for_each_dom;
      first [ done | apply cap_internal_dom | apply close_boundary_dom
            | intros; apply dom_set_reaction
            | intros [??] ?; apply dom_set_reaction ]. }
  rewrite set_bounds_opt_overwrite.
  rewrite (find_rxn_dom _ m O2_IDS); cycle 1.
  { unfold set_lower_bound. rewrite dom_set_reaction.
    rewrite !for_each_dom;
      first [ done | apply cap_internal_dom | apply close_boundary_dom
            | intros; apply dom_set_reaction
            | intros [??] ?; apply dom_set_reaction ]. }
  unfold set_lower_bound. rewrite reactions_set_reaction.
  rewrite (reopen_pairs_overwrite SECRETION (fun _ => 0%float) (fun ub => ub)).
  rewrite (reopen_pairs_overwrite IONS (fun ub => (- ub)%float)
             (fun _ => 100%float)).
  rewrite reopen_overwrite.
  rewrite (for_each_reactions _ _ _ _ close_boundary_reactions).
  rewrite (for_each_reactions _ _ _ _ cap_internal_reactions).
  unfold medium_bounds, closed_or_capped. cbv zeta.
  destruct (reactions m !! k) as [r|]; simpl; [|by case_decide].
  destruct (is_boundary k); by case_decide.
Qed.

Lemma not_found_notin m (cands : list string) k :
  k ∉ cands → k ∉ id <$> option_list (find_rxn m cands).
Proof.
  intros Hk. destruct (find_rxn m cands) as [rid|] eqn:E; simpl.
  - apply find_rxn_elem in E as [Hin _].
    rewrite not_elem_of_cons. split; [by intros ->|apply not_elem_of_nil].
  - apply not_elem_of_nil.
Qed.

Lemma capped_idempotent r : capped (capped r) = capped r.
Proof.
  unfold capped; simpl.
  destruct (lower_bound r <? -500)%float eqn:El,
           (500 <? upper_bound r)%float eqn:Eu;
    rewrite ?El, ?Eu; reflexivity.
Qed.

Lemma closed_or_capped_idempotent k r :
  closed_or_capped k (closed_or_capped k r) = closed_or_capped k r.
Proof.
  unfold closed_or_capped. destruct (is_boundary k); [done|].
  apply capped_idempotent.
Qed.

(** For the identifiers a step names, the step decides the bounds whatever
    they were; for all others only the two opening loops count. *)
Lemma medium_bounds_cases rxn_o2 rxn_glc sim k :
  (∀ r r', medium_bounds rxn_o2 rxn_glc sim k r
           = medium_bounds rxn_o2 rxn_glc sim k r')
  ∨ (∀ r, medium_bounds rxn_o2 rxn_glc sim k r = closed_or_capped k r).
Proof.
  unfold medium_bounds. cbv zeta.
  destruct (decide (k ∈ id <$> VITAMINS)) as [H|H7];
    [left; intros; by apply overwrite_in|].
  destruct (decide (k ∈ id <$> ESSENTIAL_AA)) as [H|H6];
    [left; intros; f_equal; by apply overwrite_in|].
  destruct (decide (k ∈ id <$> option_list rxn_glc)) as [H|H5];
    [left; intros; do 2 f_equal; by apply overwrite_in|].
  destruct (decide (k ∈ id <$> option_list rxn_o2)) as [H|H4];
    [left; intros; do 3 f_equal; by apply overwrite_in|].
  destruct (decide (k ∈ fst <$> SECRETION)) as [H|H3].
  { left; intros. do 4 f_equal.
    rewrite (overwrite_in fst _ SECRETION k _
               (overwrite fst (fun x => mkReaction (- x.2) 100) IONS k
                  (overwrite id (fun _ => mkReaction (-1000) 1000) FREE k
                     (closed_or_capped k r'))) H).
    done. }
  assert (Hnh4 : "EX_nh4_e" ≠ k).
  { intros <-. apply H3. by apply (bool_decide_unpack _). }
  destruct (decide (k ∈ fst <$> IONS)) as [H|H2].
  { left; intros. do 4 f_equal. rewrite !decide_False by done.
    f_equal. by apply overwrite_in. }
  destruct (decide (k ∈ id <$> FREE)) as [H|H1].
  { left; intros. do 4 f_equal. rewrite !decide_False by done.
    do 2 f_equal. by apply overwrite_in. }
  right. intros r. rewrite !overwrite_notin by done.
  by rewrite decide_False.
Qed.

End Medium.

(** X2. [setup_medium] neither adds nor removes a reaction and leaves the
    objective alone, so an identifier resolves after it as it did before. *)
Theorem setup_medium_keeps_reactions (m : Model) (cfg : Config) :
  dom (reactions (setup_medium m cfg)) = dom (reactions m) ∧
  objective (setup_medium m cfg) = objective m ∧
  ∀ candidates,
    find_rxn (setup_medium m cfg) candidates = find_rxn m candidates.
Proof.
  split; [apply setup_medium_dom|]. split; [apply setup_medium_objective|].
  intros cands. apply find_rxn_dom, setup_medium_dom.
Qed.

(** X3. The fixed part of the medium: after [setup_medium] each free
    exchange the network has is at (-1000, 1000), each inorganic ion at
    (-10, 100), CO2 at (0, 1000) and ammonium at (-0.5, 100), whatever the
    bounds were and whatever the configuration says. *)
Theorem medium_fixed_exchanges (m : Model) (cfg : Config) (k : string) :
  is_Some (reactions m !! k) →
  let after := reactions (setup_medium m cfg) !! k in
  (k ∈ FREE → after = Some (mkReaction (-1000) 1000)) ∧
  (k ∈ IONS.*1 → after = Some (mkReaction (-10) 100)) ∧
  (k = "EX_co2_e" → after = Some (mkReaction 0 1000)) ∧
  (k = "EX_nh4_e" → after = Some (mkReaction (-0.5) 100)).
Proof.
  intros [r Hr] after. subst after.
  rewrite setup_medium_reactions, Hr. simpl.
  unfold medium_bounds, FREE, IONS. cbv zeta.
  repeat split; simpl; rewrite ?elem_of_cons, ?elem_of_nil; intros Hk;
    repeat (destruct Hk as [Hk|Hk]); try done; subst k;
    rewrite (overwrite_notin id _ (option_list (find_rxn m GLUCOSE_IDS)))
      by (apply not_found_notin, (bool_decide_unpack _); vm_compute; exact I);
    rewrite (overwrite_notin id _ (option_list (find_rxn m O2_IDS)))
      by (apply not_found_notin, (bool_decide_unpack _); vm_compute; exact I);
    reflexivity.
Qed.

Lemma medium_fixed_exchanges_witness :
  reactions (setup_medium medium_model toy_cfg) !! "EX_nh4_e"
    = Some (mkReaction (-0.5) 100) ∧
  reactions (setup_medium medium_model toy_cfg) !! "EX_pi_e"
    = Some (mkReaction (-10) 100).
Proof.
  assert (H1 : is_Some (reactions medium_model !! "EX_nh4_e"))
    by (vm_compute; eauto).
  assert (H2 : is_Some (reactions medium_model !! "EX_pi_e"))
    by (vm_compute; eauto).
  split.
  - exact (proj2 (proj2 (proj2
      (medium_fixed_exchanges medium_model toy_cfg "EX_nh4_e" H1))) eq_refl).
  - refine (proj1 (proj2
      (medium_fixed_exchanges medium_model toy_cfg "EX_pi_e" H2)) _).
    left.
Defined.

(** X4. The scarce substrates: the oxygen exchange that [find_rxn] resolves
    ends at (-oxygen_uptake, 0) and the resolved glucose exchange at
    (-glucose_uptake, 0), uptake only. *)
Theorem medium_scarce_substrates (m : Model) (cfg : Config) (rid : string) :
  find_rxn m O2_IDS = Some rid ∨ find_rxn m GLUCOSE_IDS = Some rid →
  let sim := host_simulation cfg in
  let after := reactions (setup_medium m cfg) !! rid in
  (find_rxn m O2_IDS = Some rid →
     after = Some (mkReaction (- oxygen_uptake sim) 0)) ∧
  (find_rxn m GLUCOSE_IDS = Some rid →
     after = Some (mkReaction (- glucose_uptake sim) 0)).
Proof.
  intros _ sim after. subst sim after. split; intros E.
  - destruct (find_rxn_elem _ _ _ E) as [Hin [r Hr]].
    rewrite setup_medium_reactions, Hr, E. simpl.
    unfold medium_bounds. cbv zeta.
    rewrite (overwrite_notin id _ (option_list (find_rxn m GLUCOSE_IDS))).
    + unfold O2_IDS in Hin. rewrite !elem_of_cons, elem_of_nil in Hin.
      destruct Hin as [->|[->|[]]]; reflexivity.
    + apply not_found_notin. clear E Hr. revert rid Hin. apply Forall_forall.
      apply (bool_decide_unpack _). vm_compute. exact I.
  - destruct (find_rxn_elem _ _ _ E) as [Hin [r Hr]].
    rewrite setup_medium_reactions, Hr, E. simpl.
    unfold medium_bounds, GLUCOSE_IDS in *. cbv zeta.
    rewrite !elem_of_cons, elem_of_nil in Hin.
    destruct Hin as [->|[->|[->|[]]]]; reflexivity.
Qed.

Lemma medium_scarce_substrates_witness :
  reactions (setup_medium medium_model toy_cfg) !! "EX_o2[e]"
    = Some (mkReaction (-20) 0) ∧
  reactions (setup_medium medium_model toy_cfg) !! "EX_glc_D_e"
    = Some (mkReaction (-1) 0).
Proof.
  assert (H1 : find_rxn medium_model O2_IDS = Some "EX_o2[e]")
    by (vm_compute; reflexivity).
  assert (H2 : find_rxn medium_model GLUCOSE_IDS = Some "EX_glc_D_e")
    by (vm_compute; reflexivity).
  split.
  - exact (proj1 (medium_scarce_substrates medium_model toy_cfg "EX_o2[e]"
                    (or_introl H1)) H1).
  - exact (proj2 (medium_scarce_substrates medium_model toy_cfg "EX_glc_D_e"
                    (or_intror H2)) H2).
Defined.

(** X5. The trace nutrients: each essential amino-acid exchange the network
    has ends at (-amino_acid_uptake, 0) and each vitamin exchange at
    (-vitamin_uptake, 0), with 0.01 for a magnitude the configuration does not
    give. *)
Theorem medium_trace_nutrients (m : Model) (cfg : Config) (k : string) :
  is_Some (reactions m !! k) →
  let sim := host_simulation cfg in
  let after := reactions (setup_medium m cfg) !! k in
  (k ∈ ESSENTIAL_AA →
     after = Some (mkReaction (- default 0.01%float (amino_acid_uptake sim)) 0)) ∧
  (k ∈ VITAMINS →
     after = Some (mkReaction (- default 0.01%float (vitamin_uptake sim)) 0)).
Proof.
  intros [r Hr] sim after. subst sim after.
  rewrite setup_medium_reactions, Hr. simpl.
  unfold medium_bounds, ESSENTIAL_AA, VITAMINS. cbv zeta.
  split; rewrite ?elem_of_cons, ?elem_of_nil; intros Hk;
    repeat (destruct Hk as [Hk|Hk]); try done; subst k; reflexivity.
Qed.

Lemma medium_trace_nutrients_witness :
  reactions (setup_medium medium_model toy_cfg) !! "EX_his__L_e"
    = Some (mkReaction (-0.01) 0) ∧
  reactions (setup_medium medium_model toy_cfg) !! "EX_thm_e"
    = Some (mkReaction (-0.02) 0).
Proof.
  assert (H1 : is_Some (reactions medium_model !! "EX_his__L_e"))
    by (vm_compute; eauto).
  assert (H2 : is_Some (reactions medium_model !! "EX_thm_e"))
    by (vm_compute; eauto).
  split.
  - refine (proj1 (medium_trace_nutrients medium_model toy_cfg _ H1) _).
    left.
  - refine (proj2 (medium_trace_nutrients medium_model toy_cfg _ H2) _).
    left.
Defined.

(** X6. [setup_medium] is idempotent on the bounds: configuring an already
    configured network with the same configuration changes no bound (and not
    the objective). *)
Theorem setup_medium_idempotent (m : Model) (cfg : Config) :
  reactions (setup_medium (setup_medium m cfg) cfg)
    = reactions (setup_medium m cfg) ∧
  objective (setup_medium (setup_medium m cfg) cfg)
    = objective (setup_medium m cfg).
Proof.
  split; [|by rewrite !setup_medium_objective].
  apply map_eq. intros k.
  rewrite (setup_medium_reactions (setup_medium m cfg)).
  rewrite !(find_rxn_dom (setup_medium m cfg) m) by apply setup_medium_dom.
  rewrite setup_medium_reactions.
  destruct (reactions m !! k) as [r|]; simpl; [|done]. f_equal.
  destruct (medium_bounds_cases (find_rxn m O2_IDS) (find_rxn m GLUCOSE_IDS)
              (host_simulation cfg) k) as [Hconst|Hbase].
  - apply Hconst.
  - rewrite !Hbase. apply closed_or_capped_idempotent.
Qed.

(** ** [read_scfa_inputs]: which tables pass, and what comes back *)

(** X7. The header is checked first: a table that lacks a needed column is
    rejected with the error listing exactly the needed columns it lacks,
    whatever its rows and the expected conditions are. *)
Theorem missing_columns_reported (df : DataFrame) (expected : list string)
    (c : string) :
  c ∈ NEEDED → c ∉ columns df →
  ∃ missing,
    read_scfa_inputs df expected = Raise (ValueError (MissingColumns missing)) ∧
    ∀ x, x ∈ missing ↔ x ∈ NEEDED ∧ x ∉ columns df.
Proof.
  intros Hc Hnot. exists (filter (fun c => c ∉ columns df) NEEDED). split.
  - rewrite read_scfa_inputs_unfold. cbv zeta.
    rewrite bool_decide_true; [done|].
    intros Hnil. apply Hnot. by apply (proj1 (missing_nil _ _) Hnil).
  - intros x. rewrite list_elem_of_filter. tauto.
Qed.

Lemma missing_columns_reported_witness :
  ∃ missing,
    read_scfa_inputs no_butyrate_table ["High"; "Low"]
      = Raise (ValueError (MissingColumns missing)) ∧
    "butyrate_mmol_gDW_hr" ∈ missing.
Proof.
  assert (H1 : "butyrate_mmol_gDW_hr" ∈ NEEDED)
    by (apply (bool_decide_unpack _); vm_compute; exact I).
  assert (H2 : "butyrate_mmol_gDW_hr" ∉ columns no_butyrate_table)
    by (apply (bool_decide_unpack _); vm_compute; exact I).
  destruct (missing_columns_reported no_butyrate_table ["High"; "Low"] _ H1 H2)
    as (missing & Hr & Hiff).
  exists missing. split; [exact Hr|]. apply Hiff. by split.
Defined.

Lemma check_negatives_Ok cols (rs : list Row) :
  check_negatives cols rs = Ok tt ↔
  ∀ c get r, (c, get) ∈ cols → r ∈ rs → (get r <? 0)%float = false.
Proof.
  split.
  - intros Hok c get r Hc Hr.
    destruct (check_negatives_spec cols rs)
      as [[_ Hall]|(?&?&?&?&_&_&_&Hraise)]; [|congruence].
    specialize (Hall c get Hc).
    destruct (get r <? 0)%float eqn:E; [|done].
    assert (any_negative get rs = true) by (apply any_negative_true; eauto).
    congruence.
  - intros Hall.
    destruct (check_negatives_spec cols rs)
      as [[Hok _]|(pre&c&get&post&->&_&Hany&_)]; [done|].
    apply any_negative_true in Hany as (r & Hr & Hneg).
    rewrite (Hall c get r) in Hneg; [done| |done].
    apply elem_of_app. right. left.
Qed.

(** X8. A table passes [read_scfa_inputs] exactly when it has the four
    needed columns, its condition names (as text) form the expected set, and
    no dose is below zero; nothing else is checked. *)
Theorem validation_accepts_iff (df : DataFrame) (expected : list string) :
  (∃ df', read_scfa_inputs df expected = Ok df') ↔
  (∀ c, c ∈ NEEDED → c ∈ columns df) ∧
  (list_to_set (condition_name <$> rows df) : gset string)
    = list_to_set expected ∧
  (∀ c get r, (c, get) ∈ DOSE_COLUMNS → r ∈ rows df →
     (get r <? 0)%float = false).
Proof.
  split.
  - intros (df' & (Hcols & Hset & Hneg & _)%read_scfa_inputs_Ok).
    split; [done|]. split; [done|]. by apply check_negatives_Ok.
  - intros (Hcols & Hset & Hneg). eexists.
    rewrite read_scfa_inputs_unfold. cbv zeta.
    apply missing_nil in Hcols. rewrite Hcols.
    rewrite bool_decide_false by (by intros []).
    rewrite bool_decide_false by (by intros []).
    apply check_negatives_Ok in Hneg. by rewrite Hneg.
Qed.

(** X9. What a successful validation returns: the header as it was (other
    columns included), and every row of the table exactly once, reordered,
    with its doses untouched and its condition turned into text. *)
Theorem validation_returns_all_rows (df df' : DataFrame)
    (expected : list string) :
  read_scfa_inputs df expected = Ok df' →
  columns df' = columns df ∧
  rows df' ≡ₚ astype_str <$> rows df ∧
  length (rows df') = length (rows df) ∧
  condition_name <$> rows df' ≡ₚ condition_name <$> rows df.
Proof.
  intros (_ & _ & _ & ->)%read_scfa_inputs_Ok. cbn [columns rows].
  assert (Hp : sort_by condition_name (astype_str <$> rows df)
               ≡ₚ astype_str <$> rows df) by apply sort_by_Permutation.
  split; [done|]. split; [done|]. split.
  - by rewrite Hp, length_fmap.
  - by rewrite Hp, astype_str_names.
Qed.

Lemma validation_returns_all_rows_witness :
  ∃ df', read_scfa_inputs duplicate_table ["High"; "Low"] = Ok df' ∧
         length (rows df') = 3.
Proof.
  eexists. split; [vm_compute; reflexivity|].
  refine (proj1 (proj2 (proj2 (validation_returns_all_rows duplicate_table _
            ["High"; "Low"] _)))).
  vm_compute. reflexivity.
Defined.

(** ** [main] of the simulation stage *)

Lemma objective_apply_doses scfa_rxns row (m : Model) :
  objective (apply_doses scfa_rxns row m) = objective m.
Proof.
  apply for_each_objective. intros [n d] m'. unfold apply_dose.
  repeat case_match; try done. apply objective_set_reaction.
Qed.

Lemma dom_apply_doses scfa_rxns row (m : Model) :
  dom (reactions (apply_doses scfa_rxns row m)) = dom (reactions m).
Proof.
  apply for_each_dom. intros [n d] m'. unfold apply_dose.
  repeat case_match; try done. apply dom_set_reaction.
Qed.

Section MainFacts.

Variable solve : gmap string Reaction → option string → Solution.

(** The loop, with the problems it hands to the solver. *)
Lemma run_conditions_log atpm scfa_rxns rxn_glc rxn_o2 baseline
    (scfa_rows : list Row) (w : World) :
  run_conditions solve atpm scfa_rxns rxn_glc rxn_o2 baseline scfa_rows w =
    (Ok (condition_outcome solve atpm scfa_rxns rxn_glc rxn_o2 baseline
           (model w) <$> scfa_rows),
     mkWorld (model w)
       (reverse (condition_problem scfa_rxns (model w) <$> scfa_rows)
          ++ solved w)).
Proof.
  revert w. induction scfa_rows as [|row rest IH]; intros w.
  - by destruct w.
  - cbn [run_conditions]. unfold mbind, M_bind at 1.
    rewrite run_condition_outcome.
    unfold mbind, M_bind at 1. rewrite IH. cbn [model solved].
    unfold mret, M_ret. rewrite !fmap_cons, reverse_cons, <- app_assoc.
    reflexivity.
Qed.

Lemma bind_lift_Ok {A B} (a : A) (k : A → M B) (w : World) :
  (lift (Ok a) ≫= k) w = k a w.
Proof. reflexivity. Qed.

Lemma bind_lift_Raise {A B} (e : Exception) (k : A → M B) (w : World) :
  (lift (Raise e) ≫= k) w = (Raise e, w).
Proof. reflexivity. Qed.

Lemma bind_modify_model {B} (f : Model → Model) (k : unit → M B) (w : World) :
  (modify_model f ≫= k) w = k tt (mkWorld (f (model w)) (solved w)).
Proof. reflexivity. Qed.

Lemma bind_get_model {B} (k : Model → M B) (w : World) :
  (get_model ≫= k) w = k (model w) w.
Proof. reflexivity. Qed.

Lemma bind_optimize {B} (k : Solution → M B) (w : World) :
  (optimize solve ≫= k) w =
    k (solve (reactions (model w)) (objective (model w)))
      (mkWorld (model w)
         ((reactions (model w), objective (model w)) :: solved w)).
Proof. reflexivity. Qed.

(** [main] up to the resolution of the objective reaction. *)
Lemma main_unfold (scfa_inputs_canonical : DataFrame) (cfg : Config)
    (sbml : Model) :
  main solve scfa_inputs_canonical cfg (loaded sbml) =
    match read_scfa_inputs scfa_inputs_canonical (project_conditions cfg) with
    | Raise e => (Raise e, loaded sbml)
    | Ok scfa_df =>
        match find_rxn sbml ATPM_IDS with
        | None => (Raise (RuntimeError "Can't find ATPM reaction"),
                   mkWorld (setup_medium sbml cfg) [])
        | Some atpm =>
            let m := configured sbml cfg atpm in
            run_conditions solve atpm (find_scfa_rxns m)
              (find_rxn m GLUCOSE_IDS) (find_rxn m O2_IDS)
              (float_or_0 (objective_value (solve (reactions m) (Some atpm))))
              (rows scfa_df)
              (mkWorld m [(reactions m, Some atpm)])
        end
    end.
Proof.
  unfold main. cbv zeta.
  destruct (read_scfa_inputs scfa_inputs_canonical (project_conditions cfg))
    as [scfa_df|e].
  - rewrite bind_lift_Ok, bind_modify_model, bind_get_model.
    cbn [model solved loaded].
    rewrite (find_rxn_dom _ sbml) by apply setup_medium_dom.
    destruct (find_rxn sbml ATPM_IDS) as [atpm|]; [|reflexivity].
    rewrite !bind_modify_model, bind_get_model, bind_optimize.
    reflexivity.
  - apply bind_lift_Raise.
Qed.

(** [main] when the dose table is valid and the objective resolves. *)
Lemma main_success (scfa_inputs_canonical : DataFrame) (cfg : Config)
    (sbml : Model) (scfa_df : DataFrame) (atpm : string) :
  read_scfa_inputs scfa_inputs_canonical (project_conditions cfg)
    = Ok scfa_df →
  find_rxn sbml ATPM_IDS = Some atpm →
  main solve scfa_inputs_canonical cfg (loaded sbml) =
    (Ok (condition_outcome solve atpm
           (find_scfa_rxns (configured sbml cfg atpm))
           (find_rxn (configured sbml cfg atpm) GLUCOSE_IDS)
           (find_rxn (configured sbml cfg atpm) O2_IDS)
           (float_or_0 (objective_value
              (solve (reactions (configured sbml cfg atpm)) (Some atpm))))
           (configured sbml cfg atpm) <$> rows scfa_df),
     mkWorld (configured sbml cfg atpm)
       (reverse (condition_problem
                   (find_scfa_rxns (configured sbml cfg atpm))
                   (configured sbml cfg atpm) <$> rows scfa_df)
          ++ [(reactions (configured sbml cfg atpm), Some atpm)])).
Proof.
  intros Hread Hatpm.
  rewrite main_unfold, Hread, Hatpm. cbv zeta.
  apply run_conditions_log.
Qed.


Lemma get_pathway_fluxes_keys (m : Model) (sol : Solution) :
  (get_pathway_fluxes m sol).*1 = (fun p => "pathway_" +:+ p.1) <$> PATHWAYS.
Proof.
  unfold get_pathway_fluxes. generalize PATHWAYS. intros ps.
  rewrite <- list_fmap_compose. apply list_fmap_ext.
  by intros i [rid label] _.
Qed.

Lemma res_condition_outcome atpm scfa_rxns rxn_glc rxn_o2 baseline m
    (scfa_rows : list Row) :
  res_condition <$> (condition_outcome solve atpm scfa_rxns rxn_glc rxn_o2
                       baseline m <$> scfa_rows)
  = condition <$> scfa_rows.
Proof. rewrite <- list_fmap_compose. by apply list_fmap_ext. Qed.

Lemma reactions_mkModel rxns obj ctxs :
  reactions (mkModel rxns obj ctxs) = rxns.
Proof. reflexivity. Qed.

Lemma reactions_enter (m : Model) : reactions (enter m) = reactions m.
Proof. reflexivity. Qed.

Lemma objective_enter (m : Model) : objective (enter m) = objective m.
Proof. reflexivity. Qed.

Lemma reactions_configured (sbml : Model) (cfg : Config) (atpm : string) :
  reactions (configured sbml cfg atpm)
  = reactions (set_bounds atpm 0%float 500%float (setup_medium sbml cfg)).
Proof. unfold configured. cbv zeta. apply reactions_mkModel. Qed.

Lemma objective_configured (sbml : Model) (cfg : Config) (atpm : string) :
  objective (configured sbml cfg atpm) = Some atpm.
Proof. reflexivity. Qed.

Lemma configured_objective_bounds (sbml : Model) (cfg : Config)
    (atpm : string) :
  find_rxn sbml ATPM_IDS = Some atpm →
  reactions (configured sbml cfg atpm) !! atpm = Some (mkReaction 0 500).
Proof.
  intros [_ [r Hr]]%find_rxn_elem.
  rewrite reactions_configured.
  unfold set_bounds. rewrite reactions_set_reaction, decide_True by done.
  assert (Hdom : is_Some (reactions (setup_medium sbml cfg) !! atpm)).
  { rewrite <- elem_of_dom, setup_medium_dom, elem_of_dom. eauto. }
  destruct Hdom as [r' ->]. reflexivity.
Qed.

Lemma configured_dom (sbml : Model) (cfg : Config) (atpm : string) :
  dom (reactions (configured sbml cfg atpm)) = dom (reactions sbml).
Proof.
  rewrite reactions_configured. unfold set_bounds.
  by rewrite dom_set_reaction, setup_medium_dom.
Qed.

Lemma atpm_first (sbml : Model) (atpm : string) :
  find_rxn sbml ATPM_IDS = Some atpm →
  is_Some (reactions sbml !! "ATPM") → atpm = "ATPM".
Proof.
  intros Hatpm Hin. unfold ATPM_IDS in Hatpm. cbn [find_rxn] in Hatpm.
  unfold has_reaction at 1 in Hatpm.
  rewrite bool_decide_true in Hatpm by done. congruence.
Qed.

(** X11. A successful run: the result rows follow the validated table row
    by row, all carry the resolved objective identifier, the same baseline
    (the objective value of the configured network, 0 when the solver gives
    none) and the full pathway panel; the network is left as configured, with
    the objective reaction at (0, 500) even when it is the demand reaction
    that the medium had closed. *)
Theorem main_success_rows (scfa_inputs_canonical : DataFrame) (cfg : Config)
    (sbml : Model) (scfa_df : DataFrame) (atpm : string) :
  read_scfa_inputs scfa_inputs_canonical (project_conditions cfg)
    = Ok scfa_df →
  find_rxn sbml ATPM_IDS = Some atpm →
  ∃ results w',
    main solve scfa_inputs_canonical cfg (loaded sbml) = (Ok results, w') ∧
    res_condition <$> results = condition <$> rows scfa_df ∧
    Forall (fun res =>
              res_objective_id res = atpm ∧
              res_baseline_objective res
                = float_or_0 (objective_value
                    (solve (reactions (configured sbml cfg atpm))
                       (Some atpm))) ∧
              (res_pathways res).*1
                = (fun p => "pathway_" +:+ p.1) <$> PATHWAYS) results ∧
    model w' = configured sbml cfg atpm ∧
    objective (model w') = Some atpm ∧
    reactions (model w') !! atpm = Some (mkReaction 0 500) ∧
    (is_Some (reactions sbml !! "ATPM") → atpm = "ATPM").
Proof.
  intros Hread Hatpm.
  eexists _, _. split; [by apply main_success|].
  split; [apply res_condition_outcome|].
  split; [|split; [reflexivity|split; [reflexivity|split]]].
  - apply Forall_fmap, Forall_true. intros row.
    split; [reflexivity|]. split; [reflexivity|].
    apply get_pathway_fluxes_keys.
  - by apply configured_objective_bounds.
  - by apply atpm_first.
Qed.

Lemma scfa_get_candidate (m : Model) (n k : string) :
  scfa_get (find_scfa_rxns m) n = Some k → k ∈ SCFA_CANDIDATES.
Proof.
  intros (cands & Hin & [Hk _]%find_rxn_elem)%scfa_get_resolved.
  unfold SCFA_CANDIDATES. apply list_elem_of_bind. by exists (n, cands).
Qed.

(** Outside the SCFA candidates the doses of a condition change nothing. *)
Lemma dosed_frame (m : Model) (row : Row) (k : string) :
  k ∉ SCFA_CANDIDATES →
  reactions (apply_doses (find_scfa_rxns m) row (enter m)) !! k
  = reactions m !! k.
Proof.
  intros Hk.
  rewrite (apply_doses_frame (find_scfa_rxns m) row (enter m) k).
  - by rewrite reactions_enter.
  - intros n d _ Hget. destruct Hk. by eapply scfa_get_candidate.
Qed.

Lemma atpm_not_scfa (atpm : string) :
  atpm ∈ ATPM_IDS → atpm ∉ SCFA_CANDIDATES.
Proof.
  revert atpm. apply Forall_forall.
  apply (bool_decide_unpack _). vm_compute. exact I.
Qed.

(** X12. Every linear programme that a successful run hands to the solver,
    the baseline included, has the resolved objective reaction as objective
    with bounds (0, 500), has the reactions of the loaded network, and
    differs from the configured network at most on the candidate identifiers
    of the SCFA exchanges. *)
Theorem solved_problems_share_medium (scfa_inputs_canonical : DataFrame)
    (cfg : Config) (sbml : Model) (scfa_df : DataFrame) (atpm : string) :
  read_scfa_inputs scfa_inputs_canonical (project_conditions cfg)
    = Ok scfa_df →
  find_rxn sbml ATPM_IDS = Some atpm →
  ∃ results w',
    main solve scfa_inputs_canonical cfg (loaded sbml) = (Ok results, w') ∧
    ∀ rxns obj, (rxns, obj) ∈ solved w' →
      obj = Some atpm ∧
      rxns !! atpm = Some (mkReaction 0 500) ∧
      dom rxns = dom (reactions sbml) ∧
      ∀ k, k ∉ SCFA_CANDIDATES →
        rxns !! k = reactions (configured sbml cfg atpm) !! k.
Proof.
  intros Hread Hatpm.
  eexists _, _. split; [by apply main_success|].
  intros rxns obj Hin.
  change (solved (mkWorld ?m ?l)) with l in Hin.
  rewrite elem_of_app, elem_of_reverse, list_elem_of_fmap in Hin.
  destruct Hin as [(row & Hp & _)|Hp%list_elem_of_singleton].
  - unfold condition_problem in Hp. cbv zeta in Hp.
    apply pair_equal_spec in Hp as [-> ->].
    rewrite objective_apply_doses, objective_enter, objective_configured.
    rewrite dom_apply_doses, reactions_enter, configured_dom.
    split; [done|]. split; [|split; [done|]].
    + rewrite dosed_frame.
      * by apply configured_objective_bounds.
      * apply atpm_not_scfa. by apply find_rxn_elem in Hatpm as [? _].
    + intros k Hk. by apply dosed_frame.
  - apply pair_equal_spec in Hp as [-> ->].
    split; [done|]. split; [by apply configured_objective_bounds|].
    split; [apply configured_dom|done].
Qed.

Lemma outcome_objective_value atpm scfa_rxns rxn_glc rxn_o2 baseline m row :
  res_objective_value
    (condition_outcome solve atpm scfa_rxns rxn_glc rxn_o2 baseline m row)
  = float_or_0 (objective_value
      (solve (reactions (apply_doses scfa_rxns row (enter m)))
             (objective (apply_doses scfa_rxns row (enter m))))).
Proof. reflexivity. Qed.

Lemma outcome_baseline atpm scfa_rxns rxn_glc rxn_o2 baseline m row :
  res_baseline_objective
    (condition_outcome solve atpm scfa_rxns rxn_glc rxn_o2 baseline m row)
  = baseline.
Proof. reflexivity. Qed.

Lemma outcome_delta atpm scfa_rxns rxn_glc rxn_o2 baseline m row :
  res_objective_delta
    (condition_outcome solve atpm scfa_rxns rxn_glc rxn_o2 baseline m row)
  = (res_objective_value
       (condition_outcome solve atpm scfa_rxns rxn_glc rxn_o2 baseline m row)
     - baseline)%float.
Proof. reflexivity. Qed.

Lemma outcome_condition atpm scfa_rxns rxn_glc rxn_o2 baseline m row :
  res_condition
    (condition_outcome solve atpm scfa_rxns rxn_glc rxn_o2 baseline m row)
  = condition row.
Proof. reflexivity. Qed.

(** X13. A condition none of whose doses is strictly positive is solved on
    the very problem of the baseline, so its objective value equals the
    baseline objective recorded beside it. *)
Theorem zero_dose_condition_is_baseline (scfa_inputs_canonical : DataFrame)
    (cfg : Config) (sbml : Model) (scfa_df : DataFrame) (atpm : string)
    (i : nat) (row : Row) :
  read_scfa_inputs scfa_inputs_canonical (project_conditions cfg)
    = Ok scfa_df →
  find_rxn sbml ATPM_IDS = Some atpm →
  rows scfa_df !! i = Some row →
  (∀ n d, (n, d) ∈ doses row → (0 <? d)%float = false) →
  ∃ results w' res,
    main solve scfa_inputs_canonical cfg (loaded sbml) = (Ok results, w') ∧
    results !! i = Some res ∧
    res_condition res = condition row ∧
    res_objective_value res = res_baseline_objective res ∧
    res_objective_delta res
      = (res_baseline_objective res - res_baseline_objective res)%float.
Proof.
  intros Hread Hatpm Hrow Hdoses.
  eexists _, _, _. split; [by apply main_success|].
  split; [by rewrite list_lookup_fmap, Hrow|].
  rewrite outcome_condition, outcome_delta, outcome_baseline,
    outcome_objective_value.
  assert (Hsame : ∀ m,
    reactions (apply_doses (find_scfa_rxns m) row (enter m)) = reactions m).
  { intros m. apply map_eq. intros k.
    rewrite (apply_doses_frame (find_scfa_rxns m) row (enter m) k).
    - by rewrite reactions_enter.
    - intros n d Hin _. by apply (Hdoses n). }
  rewrite Hsame, objective_apply_doses, objective_enter, objective_configured.
  done.
Qed.

End MainFacts.
Lemma main_success_rows_witness :
  ∃ results w',
    main toy_solve toy_table toy_cfg (loaded toy_model) = (Ok results, w') ∧
    res_condition <$> results = [Str "High"; Str "Low"] ∧
    model w' = configured toy_model toy_cfg "ATPM".
Proof.
  assert (H1 : read_scfa_inputs toy_table (project_conditions toy_cfg)
               = Ok (mkDataFrame PIPELINE_COLUMNS
                       [ mkRow (Str "High") 5 2 1;
                         mkRow (Str "Low") 1 0.5 0 ]%float))
    by (vm_compute; reflexivity).
  assert (H2 : find_rxn toy_model ATPM_IDS = Some "ATPM")
    by (vm_compute; reflexivity).
  destruct (main_success_rows toy_solve toy_table toy_cfg toy_model _ _ H1 H2)
    as (results & w' & Hmain & Hcond & _ & Hm & _).
  exists results, w'. split; [exact Hmain|]. split; [exact Hcond|exact Hm].
Defined.

Lemma solved_problems_share_medium_witness :
  ∃ results w',
    main toy_solve toy_table toy_cfg (loaded toy_model) = (Ok results, w') ∧
    ∀ rxns obj, (rxns, obj) ∈ solved w' →
      obj = Some "ATPM" ∧ rxns !! "ATPM" = Some (mkReaction 0 500).
Proof.
  assert (H1 : read_scfa_inputs toy_table (project_conditions toy_cfg)
               = Ok (mkDataFrame PIPELINE_COLUMNS
                       [ mkRow (Str "High") 5 2 1;
                         mkRow (Str "Low") 1 0.5 0 ]%float))
    by (vm_compute; reflexivity).
  assert (H2 : find_rxn toy_model ATPM_IDS = Some "ATPM")
    by (vm_compute; reflexivity).
  destruct (solved_problems_share_medium toy_solve toy_table toy_cfg
              toy_model _ _ H1 H2) as (results & w' & Hmain & Hall).
  exists results, w'. split; [exact Hmain|].
  intros rxns obj Hin. destruct (Hall rxns obj Hin) as (Ho & Hb & _).
  split; [exact Ho|exact Hb].
Defined.

Lemma zero_dose_condition_is_baseline_witness :
  ∃ results w' res,
    main toy_solve control_table control_cfg (loaded toy_model)
      = (Ok results, w') ∧
    results !! 0 = Some res ∧
    res_condition res = Str "Control" ∧
    res_objective_value res = res_baseline_objective res.
Proof.
  assert (H1 : read_scfa_inputs control_table (project_conditions control_cfg)
               = Ok (mkDataFrame PIPELINE_COLUMNS
                       [ mkRow (Str "Control") 0 0 0;
                         mkRow (Str "High") 5 2 1 ]%float))
    by (vm_compute; reflexivity).
  assert (H2 : find_rxn toy_model ATPM_IDS = Some "ATPM")
    by (vm_compute; reflexivity).
  assert (H3 : ∀ n d, (n, d) ∈ doses (mkRow (Str "Control") 0 0 0) →
                 (0 <? d)%float = false).
  { intros n d. unfold doses. rewrite !elem_of_cons, elem_of_nil.
    intros [[= -> ->]|[[= -> ->]|[[= -> ->]|[]]]]; reflexivity. }
  destruct (zero_dose_condition_is_baseline toy_solve control_table
              control_cfg toy_model _ "ATPM" 0 (mkRow (Str "Control") 0 0 0)
              H1 H2 eq_refl H3)
    as (results & w' & res & Hmain & Hres & Hc & Hv & _).
  exists results, w', res.
  split; [exact Hmain|]. split; [exact Hres|]. split; [exact Hc|exact Hv].
Defined.

(** ** From the first stage to the second *)



(** ** The merge of the dose table with the results *)

Lemma sum_list_cons (x : nat) (l : list nat) :
  sum_list (x :: l) = x + sum_list l.
Proof. reflexivity. Qed.

Lemma filter_none {A} (P : A → Prop) `{!∀ x, Decision (P x)} (l : list A) :
  (∀ x, x ∈ l → ¬ P x) → filter P l = [].
Proof.
  induction l as [|x l IH]; intros Hall; [done|].
  rewrite filter_cons, decide_False by (apply Hall; left).
  apply IH. intros y Hy. apply Hall. by right.
Qed.

Section Merge.

Context (f : Row → SimulationResult).
Hypothesis f_condition : ∀ row, res_condition (f row) = condition row.

Lemma filter_results (l : Row) (rs : list Row) :
  filter (fun r => res_condition r = condition l) (f <$> rs)
  = f <$> filter (fun r => condition r = condition l) rs.
Proof.
  induction rs as [|r rs IH]; [done|].
  rewrite fmap_cons, !filter_cons, f_condition, IH.
  by case_decide.
Qed.

Lemma merge_left_length (sub rs : list Row) :
  sub ⊆ rs →
  length (sub ≫= (fun l =>
    match filter (fun r => res_condition r = condition l) (f <$> rs) with
    | [] => [(l, None)]
    | matches => (fun r => (l, Some r)) <$> matches
    end))
  = sum_list ((fun l => same_condition_count l rs) <$> sub).
Proof.
  induction sub as [|l sub IH]; intros Hsub; [done|].
  rewrite bind_cons, length_app, fmap_cons, sum_list_cons.
  rewrite IH by (intros x Hx; apply Hsub; by right).
  f_equal. rewrite filter_results. unfold same_condition_count.
  assert (Hin : l ∈ filter (fun r => condition r = condition l) rs).
  { apply list_elem_of_filter. split; [done|]. apply Hsub. left. }
  destruct (filter (fun r => condition r = condition l) rs) as [|x xs].
  - by apply elem_of_nil in Hin.
  - rewrite fmap_cons, <- fmap_cons. by rewrite !length_fmap.
Qed.

Lemma merge_left_matched (sub rs : list Row) :
  sub ⊆ rs →
  Forall (fun p => ∃ r, p.2 = Some r ∧ res_condition r = condition p.1)
    (sub ≫= (fun l =>
      match filter (fun r => res_condition r = condition l) (f <$> rs) with
      | [] => [(l, None)]
      | matches => (fun r => (l, Some r)) <$> matches
      end)).
Proof.
  induction sub as [|l sub IH]; intros Hsub; [constructor|].
  rewrite bind_cons. apply Forall_app. split.
  - assert (Hin : f l ∈ filter (fun r => res_condition r = condition l)
                          (f <$> rs)).
    { apply list_elem_of_filter. split; [apply f_condition|].
      apply list_elem_of_fmap. exists l. split; [done|]. apply Hsub. left. }
    destruct (filter (fun r => res_condition r = condition l) (f <$> rs))
      as [|x xs] eqn:E; [by apply elem_of_nil in Hin|].
    apply Forall_fmap, Forall_forall. intros r Hr. exists r. split; [done|].
    rewrite <- E in Hr. by apply list_elem_of_filter in Hr as [? _].
  - apply IH. intros x Hx. apply Hsub. by right.
Qed.

Lemma filter_same_condition_NoDup (l : Row) (rs : list Row) :
  NoDup (condition <$> rs) → l ∈ rs →
  filter (fun r => condition r = condition l) rs = [l].
Proof.
  induction rs as [|r rs IH]; intros Hnd Hin.
  - by apply elem_of_nil in Hin.
  - rewrite fmap_cons in Hnd. apply NoDup_cons in Hnd as [Hr Hnd].
    rewrite filter_cons. apply elem_of_cons in Hin as [->|Hin].
    + rewrite decide_True by done. f_equal.
      apply filter_none. intros x Hx Heq. apply Hr.
      rewrite <- Heq. apply list_elem_of_fmap. by exists x.
    + rewrite decide_False; [by apply IH|].
      intros Heq. apply Hr. rewrite Heq.
      apply list_elem_of_fmap. by exists l.
Qed.

Lemma merge_left_NoDup (sub rs : list Row) :
  NoDup (condition <$> rs) → sub ⊆ rs →
  sub ≫= (fun l =>
    match filter (fun r => res_condition r = condition l) (f <$> rs) with
    | [] => [(l, None)]
    | matches => (fun r => (l, Some r)) <$> matches
    end)
  = (fun l => (l, Some (f l))) <$> sub.
Proof.
  intros Hnd. induction sub as [|l sub IH]; intros Hsub; [done|].
  rewrite bind_cons, fmap_cons, IH by (intros x Hx; apply Hsub; by right).
  rewrite filter_results, (filter_same_condition_NoDup l rs Hnd)
    by (apply Hsub; left).
  reflexivity.
Qed.

End Merge.

Lemma fmap_pair_zip {A B} (g : A → B) (l : list A) :
  (fun x => (x, Some (g x))) <$> l = zip l (Some <$> (g <$> l)).
Proof.
  induction l as [|x l IH]; [done|].
  rewrite !fmap_cons. cbn [zip zip_with]. by rewrite <- IH.
Qed.

Lemma same_condition_count_pos (sub rs : list Row) :
  sub ⊆ rs →
  length sub ≤ sum_list ((fun l => same_condition_count l rs) <$> sub).
Proof.
  induction sub as [|l sub IH]; intros Hsub; [done|].
  rewrite fmap_cons, sum_list_cons. cbn [length].
  assert (Hin : l ∈ filter (fun r => condition r = condition l) rs).
  { apply list_elem_of_filter. split; [done|]. apply Hsub. left. }
  assert (1 ≤ same_condition_count l rs).
  { unfold same_condition_count.
    destruct (filter (fun r => condition r = condition l) rs);
      [by apply elem_of_nil in Hin | simpl; lia]. }
  assert (length sub ≤ sum_list ((fun l => same_condition_count l rs) <$> sub))
    by (apply IH; intros x Hx; apply Hsub; by right).
  change (1 + length sub ≤ same_condition_count l rs
            + sum_list ((fun l => same_condition_count l rs) <$> sub)).
  by apply Nat.add_le_mono.
Qed.

(** X15. When the validated dose table is not empty and its condition names
    are all different, the merged table written by [main] has exactly one row
    per dose row, in the same order, each beside the result computed for it. *)
Theorem merged_one_row_per_condition
    (solve : gmap string Reaction → option string → Solution)
    (scfa_inputs_canonical : DataFrame) (cfg : Config) (sbml : Model)
    (scfa_df : DataFrame) (atpm : string) :
  read_scfa_inputs scfa_inputs_canonical (project_conditions cfg)
    = Ok scfa_df →
  find_rxn sbml ATPM_IDS = Some atpm →
  rows scfa_df ≠ [] →
  NoDup (condition <$> rows scfa_df) →
  ∃ results w',
    main solve scfa_inputs_canonical cfg (loaded sbml) = (Ok results, w') ∧
    merged_dose_scfa_host scfa_df results
      = Some (zip (rows scfa_df) (Some <$> results)).
Proof.
  intros Hread Hatpm Hne Hnd.
  eexists _, _. split; [by apply main_success|].
  unfold merged_dose_scfa_host, merge_left.
  destruct (rows scfa_df) as [|row rest] eqn:E; [done|].
  rewrite fmap_cons. rewrite <- fmap_cons. f_equal.
  rewrite merge_left_NoDup; [apply fmap_pair_zip| |done|done].
  intros r. apply outcome_condition.
Qed.

Lemma merged_one_row_per_condition_witness :
  ∃ results w',
    main toy_solve toy_table toy_cfg (loaded toy_model) = (Ok results, w') ∧
    merged_dose_scfa_host
      (mkDataFrame PIPELINE_COLUMNS
         [ mkRow (Str "High") 5 2 1; mkRow (Str "Low") 1 0.5 0 ]%float)
      results
    = Some (zip [ mkRow (Str "High") 5 2 1; mkRow (Str "Low") 1 0.5 0 ]%float
                (Some <$> results)).
Proof.
  assert (H1 : read_scfa_inputs toy_table (project_conditions toy_cfg)
               = Ok (mkDataFrame PIPELINE_COLUMNS
                       [ mkRow (Str "High") 5 2 1;
                         mkRow (Str "Low") 1 0.5 0 ]%float))
    by (vm_compute; reflexivity).
  assert (H2 : find_rxn toy_model ATPM_IDS = Some "ATPM")
    by (vm_compute; reflexivity).
  refine (merged_one_row_per_condition toy_solve toy_table toy_cfg toy_model
            _ "ATPM" H1 H2 _ _).
  - discriminate.
  - apply (bool_decide_unpack _). vm_compute. exact I.
Defined.

(** X16. In general the merge multiplies repeated conditions: the merged
    table exists exactly when the validated dose table has a row, every one
    of its rows pairs a dose row with a result of the same condition, and a
    dose row whose condition occurs k times contributes k rows, so the merged
    table is never shorter than the dose table. *)
Theorem merged_rows_multiply
    (solve : gmap string Reaction → option string → Solution)
    (scfa_inputs_canonical : DataFrame) (cfg : Config) (sbml : Model)
    (scfa_df : DataFrame) (atpm : string) :
  read_scfa_inputs scfa_inputs_canonical (project_conditions cfg)
    = Ok scfa_df →
  find_rxn sbml ATPM_IDS = Some atpm →
  ∃ results w',
    main solve scfa_inputs_canonical cfg (loaded sbml) = (Ok results, w') ∧
    match merged_dose_scfa_host scfa_df results with
    | None => rows scfa_df = []
    | Some merged =>
        rows scfa_df ≠ [] ∧
        length merged
          = sum_list ((fun l => same_condition_count l (rows scfa_df))
                        <$> rows scfa_df) ∧
        length (rows scfa_df) ≤ length merged ∧
        Forall (fun p => ∃ r, p.2 = Some r ∧ res_condition r = condition p.1)
          merged
    end.
Proof.
  intros Hread Hatpm.
  eexists _, _. split; [by apply main_success|].
  unfold merged_dose_scfa_host, merge_left.
  destruct (rows scfa_df) as [|row rest] eqn:E; [done|].
  rewrite fmap_cons. rewrite <- fmap_cons.
  split; [done|].
  rewrite merge_left_length by (done || intros r; apply outcome_condition).
  split; [done|]. split.
  - by apply same_condition_count_pos.
  - apply merge_left_matched; [|done]. intros r. apply outcome_condition.
Qed.

Lemma merged_rows_multiply_witness :
  ∃ results w' merged,
    main toy_solve duplicate_table toy_cfg (loaded toy_model)
      = (Ok results, w') ∧
    merged_dose_scfa_host
      (mkDataFrame PIPELINE_COLUMNS
         [ mkRow (Str "High") 5 2 1; mkRow (Str "Low") 1 0.5 0;
           mkRow (Str "Low") 2 1 0.5 ]%float) results = Some merged ∧
    length merged = 5.
Proof.
  assert (H1 : read_scfa_inputs duplicate_table (project_conditions toy_cfg)
               = Ok (mkDataFrame PIPELINE_COLUMNS
                       [ mkRow (Str "High") 5 2 1; mkRow (Str "Low") 1 0.5 0;
                         mkRow (Str "Low") 2 1 0.5 ]%float))
    by (vm_compute; reflexivity).
  assert (H2 : find_rxn toy_model ATPM_IDS = Some "ATPM")
    by (vm_compute; reflexivity).
  destruct (merged_rows_multiply toy_solve duplicate_table toy_cfg toy_model
              _ "ATPM" H1 H2) as (results & w' & Hmain & Hm).
  destruct (merged_dose_scfa_host _ results) as [merged|] eqn:E;
    [|discriminate Hm].
  destruct Hm as (_ & Hlen & _).
  exists results, w', merged. split; [exact Hmain|]. split; [exact E|].
  rewrite Hlen. vm_compute. reflexivity.
Defined.

(** ** The table stage *)

Section FrameFacts.

Context {A : Type}.
Implicit Types (t : list (string * list A)) (c : string).

Lemma column_is_Some c t : is_Some (column c t) ↔ c ∈ t.*1.
Proof.
  induction t as [|[name data] t IH]; simpl.
  - split; [by intros [? ?]|]. intros Hc. by apply elem_of_nil in Hc.
  - case_decide as Hn; subst.
    + split; [left|eauto].
    + rewrite IH, elem_of_cons. split; [by right|].
      intros [?|?]; [congruence|done].
Qed.

Lemma select_is_Some t (cols : list string) :
  is_Some (select t cols) ↔ ∀ c, c ∈ cols → c ∈ t.*1.
Proof.
  unfold select. rewrite mapM_is_Some, Forall_forall.
  apply forall_proper. intros c. unfold compose.
  by rewrite fmap_is_Some, column_is_Some.
Qed.

(** A selection of present columns never fails. *)
Lemma select_present t (cols : list string) :
  is_Some (select t (filter (fun c => c ∈ t.*1) cols)).
Proof.
  apply select_is_Some. intros c Hc.
  by apply list_elem_of_filter in Hc as [? _].
Qed.

Lemma select_Some t (cols : list string) t' :
  select t cols = Some t' →
  t'.*1 = cols ∧ ∀ c d, (c, d) ∈ t' → column c t = Some d.
Proof.
  unfold select. intros H%mapM_Some_1.
  induction H as [|c [c' d'] cols t' Hc _ IH].
  - split; [done|]. intros c d Hin. by apply elem_of_nil in Hin.
  - destruct (column c t) as [d|] eqn:E; simpl in Hc; [|done].
    injection Hc as <- <-. destruct IH as [IH1 IH2].
    split; [rewrite fmap_cons; cbn [fst]; by rewrite IH1|].
    intros c0 d0 [[= -> ->]|Hin]%elem_of_cons; [done|by apply IH2].
Qed.

End FrameFacts.

(** The nested loops add, in order, the six per-SCFA names that the header
    has. *)
Lemma summary_columns_filter (header : list string) :
  filter (fun c => c ∈ header) (summary_columns header)
  = filter (fun c => c ∈ header) SUMMARY_COLUMNS.
Proof.
  assert (Hloop : ∀ (cs init : list string),
    foldl (fun scols c =>
             if bool_decide (c ∈ header) then scols ++ [c] else scols)
          init cs
    = init ++ filter (fun c => c ∈ header) cs).
  { induction cs as [|c cs IH]; intros init; cbn [foldl].
    - by rewrite app_nil_r.
    - rewrite IH, filter_cons. case_bool_decide.
      + by rewrite decide_True, <- app_assoc by done.
      + by rewrite decide_False by done. }
  change (summary_columns header) with
    (foldl (fun scols c =>
              if bool_decide (c ∈ header) then scols ++ [c] else scols)
       ["condition"; "objective_value"]
       [ "acetate_mmol_gDW_hr"; "acetate_flux";
         "propionate_mmol_gDW_hr"; "propionate_flux";
         "butyrate_mmol_gDW_hr"; "butyrate_flux" ]).
  change SUMMARY_COLUMNS with
    (["condition"; "objective_value"]
     ++ [ "acetate_mmol_gDW_hr"; "acetate_flux";
          "propionate_mmol_gDW_hr"; "propionate_flux";
          "butyrate_mmol_gDW_hr"; "butyrate_flux" ]).
  rewrite Hloop, !filter_app. f_equal.
  generalize ["acetate_mmol_gDW_hr"; "acetate_flux";
              "propionate_mmol_gDW_hr"; "propionate_flux";
              "butyrate_mmol_gDW_hr"; "butyrate_flux"].
  intros cs. induction cs as [|c cs IH]; [done|].
  rewrite filter_cons. case_decide as Hc; [|done].
  by rewrite filter_cons, decide_True, IH by done.
Qed.

(** X17. The table stage fails, with the [KeyError] of the first selection,
    exactly when the merged table lacks one of the four dose-table columns;
    the host-flux and summary tables never fail, whatever columns are there. *)
Theorem tables_fail_only_on_dose_columns {A} (merged : list (string * list A)) :
  tables_main merged = None ↔ ∃ c, c ∈ TABLE1_COLUMNS ∧ c ∉ merged.*1.
Proof.
  unfold tables_main. cbv zeta.
  destruct (select_present merged TABLE2_COLUMNS) as [t2 ->].
  destruct (select_present merged (summary_columns merged.*1)) as [t3 ->].
  destruct (select merged TABLE1_COLUMNS) as [t1|] eqn:E1; simpl.
  - split; [done|]. intros (c & Hc & Hnot). destruct Hnot.
    by apply (proj1 (select_is_Some merged TABLE1_COLUMNS)); [rewrite E1|].
  - split; [intros _|done].
    apply eq_None_not_Some in E1. rewrite select_is_Some in E1.
    rewrite <- Forall_forall in E1.
    apply (not_Forall_Exists _) in E1. apply Exists_exists in E1.
    destruct E1 as (c & Hc & Hnot). by exists c.
Qed.

Lemma tables_fail_only_on_dose_columns_witness :
  tables_main (tail small_merged) = None.
Proof.
  apply tables_fail_only_on_dose_columns. exists "condition".
  split; apply (bool_decide_unpack _); vm_compute; exact I.
Defined.

(** X18. What the table stage writes: Table 1 holds the four dose-table
    columns under their display headings, in order; Table 2 holds the host
    columns that the merged table has, in the fixed order; Table 3 holds
    condition, objective value and, per SCFA, its dose and its flux, those that
    are there; and every column of Tables 2 and 3 is the merged column of the
    same name. *)
Theorem tables_content {A} (merged t1 t2 t3 : list (string * list A)) :
  tables_main merged = Some (t1, t2, t3) →
  t1.*1 = TABLE1_HEADINGS ∧
  mapM (fun c => column c merged) TABLE1_COLUMNS = Some t1.*2 ∧
  t2.*1 = filter (fun c => c ∈ merged.*1) TABLE2_COLUMNS ∧
  t3.*1 = filter (fun c => c ∈ merged.*1) SUMMARY_COLUMNS ∧
  ∀ c d, (c, d) ∈ t2 ++ t3 → column c merged = Some d.
Proof.
  unfold tables_main. cbv zeta. intros H.
  destruct (select merged TABLE1_COLUMNS) as [s1|] eqn:E1; [|done].
  destruct (select merged (filter _ TABLE2_COLUMNS)) as [s2|] eqn:E2; [|done].
  destruct (select merged (filter _ (summary_columns _))) as [s3|] eqn:E3;
    [|done].
  simpl in H. injection H as <- <- <-.
  destruct (select_Some _ _ _ E2) as [H2 H2'].
  destruct (select_Some _ _ _ E3) as [H3 H3'].
  rewrite summary_columns_filter in H3.
  assert (Hlen : length s1 = 4).
  { destruct (select_Some _ _ _ E1) as [Hh _].
    by rewrite <- (length_fmap fst), Hh. }
  split; [|split; [|split; [done|split; [done|]]]].
  - destruct s1 as [|a [|b [|c [|d [|]]]]]; try done.
  - unfold select in E1. apply mapM_Some. apply mapM_Some_1 in E1.
    destruct s1 as [|[? a] [|[? b] [|[? c] [|[? d] [|]]]]]; try done.
    unfold TABLE1_COLUMNS, TABLE1_HEADINGS, set_columns. cbn.
    apply Forall2_cons_1 in E1 as [Ha E1].
    apply Forall2_cons_1 in E1 as [Hb E1].
    apply Forall2_cons_1 in E1 as [Hc E1].
    apply Forall2_cons_1 in E1 as [Hd _].
    assert (Hcol : ∀ c0 n (x : list A),
              pair c0 <$> column c0 merged = Some (n, x) →
              column c0 merged = Some x).
    { intros c0 n x Hx. destruct (column c0 merged); simpl in Hx; [|done].
      by injection Hx as _ ->. }
    constructor; [by eapply Hcol|].
    constructor; [by eapply Hcol|].
    constructor; [by eapply Hcol|].
    constructor; [by eapply Hcol|].
    constructor.
  - intros c d [Hin|Hin]%elem_of_app; [by apply H2'|by apply H3'].
Qed.

Lemma tables_content_witness :
  ∃ t1 t2 t3,
    tables_main small_merged = Some (t1, t2, t3) ∧
    t2.*1 = ["condition"; "objective_value"; "acetate_flux"] ∧
    t3.*1 = ["condition"; "objective_value"; "acetate_mmol_gDW_hr";
             "acetate_flux"; "propionate_mmol_gDW_hr";
             "butyrate_mmol_gDW_hr"].
Proof.
  eexists _, _, _. split; [vm_compute; reflexivity|].
  match goal with
  | |- ?t2.*1 = _ ∧ ?t3.*1 = _ =>
      destruct (tables_content small_merged _ t2 t3 eq_refl)
        as (_ & _ & H2 & H3 & _)
  end.
  split; [rewrite H2|rewrite H3]; vm_compute; reflexivity.
Defined.

(** ** The figure stage: rows and tick labels *)

Section OrderFacts.

Context {A : Type} (cond : A → string).

Lemma ord_le_total (a b : option nat) : ord_le a b = true ∨ ord_le b a = true.
Proof.
  destruct a as [i|], b as [j|]; simpl; auto.
  destruct (Nat.leb_spec i j); [by left|right].
  apply Nat.leb_le. lia.
Qed.

Lemma insert_ord_Permutation (x : A) (l : list A) :
  insert_ord cond x l ≡ₚ x :: l.
Proof.
  induction l as [|y l IH]; simpl; [done|].
  destruct (ord_le _ _); [done|]. rewrite IH. apply Permutation_swap.
Qed.

Lemma order_rows_Permutation (l : list A) : order_rows cond l ≡ₚ l.
Proof.
  induction l as [|x l IH]; simpl; [done|].
  by rewrite insert_ord_Permutation, IH.
Qed.

Lemma insert_ord_Sorted (x : A) (l : list A) :
  Sorted (ord_before cond) l → Sorted (ord_before cond) (insert_ord cond x l).
Proof.
  induction 1 as [|y l Hs IH Hhd]; simpl.
  - by repeat constructor.
  - destruct (ord_le (cond_ord (cond x)) (cond_ord (cond y))) eqn:E.
    + constructor; [by constructor | by constructor].
    + constructor; [done|].
      assert (Hyx : ord_before cond y x).
      { unfold ord_before.
        destruct (ord_le_total (cond_ord (cond x)) (cond_ord (cond y)));
          congruence. }
      destruct Hhd as [|z l Hyz]; simpl; [by constructor|].
      destruct (ord_le (cond_ord (cond x)) (cond_ord (cond z)));
        by constructor.
Qed.

Lemma order_rows_Sorted (l : list A) :
  Sorted (ord_before cond) (order_rows cond l).
Proof.
  induction l as [|x l IH]; simpl; [constructor|].
  by apply insert_ord_Sorted.
Qed.

End OrderFacts.

Lemma cond_ord_Low : cond_ord "StachysDose_Low" = Some 0.
Proof. vm_compute. reflexivity. Qed.

Lemma cond_ord_Mid : cond_ord "StachysDose_Mid" = Some 1.
Proof. vm_compute. reflexivity. Qed.

Lemma cond_ord_High : cond_ord "StachysDose_High" = Some 2.
Proof. vm_compute. reflexivity. Qed.

(** X19. When the merged table holds exactly the three stachyose conditions,
    in any order, the figure stage puts its rows in the order Low, Mid, High:
    the three tick labels, attached by position, name the rows they stand
    under. *)
Theorem figure_rows_match_labels {A} (cond : A → string) (rows : list A) :
  cond <$> rows ≡ₚ COND_ORDER →
  cond <$> order_rows cond rows = COND_ORDER ∧
  length (order_rows cond rows) = length LABELS.
Proof.
  intros Hp.
  assert (Hlen : length rows = 3)
    by (by rewrite <- (length_fmap cond), Hp).
  destruct rows as [|a [|b [|c [|]]]]; try done.
  assert (Hnd : NoDup (cond <$> [a; b; c])).
  { rewrite Hp. apply (bool_decide_unpack _). vm_compute. exact I. }
  assert (Hin : ∀ x, x ∈ [a; b; c] → cond x ∈ COND_ORDER).
  { intros x Hx. rewrite <- Hp. apply list_elem_of_fmap. by exists x. }
  assert (Ha : cond a ∈ COND_ORDER) by (apply Hin; rewrite !elem_of_cons; auto).
  assert (Hb : cond b ∈ COND_ORDER) by (apply Hin; rewrite !elem_of_cons; auto).
  assert (Hc : cond c ∈ COND_ORDER) by (apply Hin; rewrite !elem_of_cons; auto).
  unfold COND_ORDER in Ha, Hb, Hc.
  rewrite !elem_of_cons, elem_of_nil in Ha, Hb, Hc.
  rewrite !fmap_cons, fmap_nil in Hnd.
  split; [|by rewrite order_rows_Permutation].
  destruct Ha as [Ha|[Ha|[Ha|[]]]], Hb as [Hb|[Hb|[Hb|[]]]],
           Hc as [Hc|[Hc|[Hc|[]]]];
    rewrite Ha, Hb, Hc in Hnd;
    try (exfalso; revert Hnd; apply (bool_decide_unpack _);
         vm_compute; exact I);
    unfold order_rows; cbn [foldr insert_ord];
    rewrite ?Ha, ?Hb, ?Hc, ?cond_ord_Low, ?cond_ord_Mid, ?cond_ord_High;
    cbn [ord_le Nat.leb insert_ord];
    rewrite ?Ha, ?Hb, ?Hc, ?cond_ord_Low, ?cond_ord_Mid, ?cond_ord_High;
    cbn [ord_le Nat.leb fmap list_fmap];
    by rewrite ?Ha, ?Hb, ?Hc.
Qed.

Lemma figure_rows_match_labels_witness :
  order_rows id ["StachysDose_High"; "StachysDose_Low"; "StachysDose_Mid"]
  = COND_ORDER.
Proof.
  assert (Hp : id <$> ["StachysDose_High"; "StachysDose_Low";
                       "StachysDose_Mid"] ≡ₚ COND_ORDER).
  { rewrite list_fmap_id. unfold COND_ORDER.
    etrans; [apply Permutation_swap|]. apply perm_skip, Permutation_swap. }
  pose proof (proj1 (figure_rows_match_labels id _ Hp)) as H.
  rewrite list_fmap_id in H. exact H.
Defined.

(** X20. For any merged table the figure stage only reorders the rows, and
    in its order no row comes before one it should follow: the listed
    conditions stand first, by rank, and the unlisted ones after them. *)
Theorem figure_rows_sorted {A} (cond : A → string) (rows : list A) :
  order_rows cond rows ≡ₚ rows ∧
  Sorted (ord_before cond) (order_rows cond rows) ∧
  ∀ x y, ord_before cond x y ↔
    match cond_ord (cond x), cond_ord (cond y) with
    | Some i, Some j => i ≤ j
    | Some _, None => True
    | None, Some _ => False
    | None, None => True
    end.
Proof.
  split; [apply order_rows_Permutation|].
  split; [apply order_rows_Sorted|].
  intros x y. unfold ord_before, ord_le.
  destruct (cond_ord (cond x)), (cond_ord (cond y)); try done.
  apply Nat.leb_le.
Qed.
